(** * Virtual machine mapping helpers of the azurerm provider

    A shallow embedding of
    [azurerm/internal/services/compute/virtual_machine.go]: the identifier
    parser and its validation adapter, the network-interface expand/flatten
    pair and the OS-disk expand/flatten pair, with the properties the
    specification states about them. *)

From stdpp Require Import base option list strings gmap fin_maps.
From Stdlib Require Import ZArith Lia Ascii.

Local Open Scope string_scope.
Local Open Scope Z_scope.

(** ** Go runtime: panics, slices, dynamic values *)

(** A Go computation either returns or panics.  The payload of [Panic] is
    the runtime's reason; nothing in the file recovers from one. *)
Inductive result (A : Type) : Type :=
| Ok (a : A)
| Panic (msg : string).
Arguments Ok {A} a.
Arguments Panic {A} msg.

#[global] Instance result_ret : MRet result := fun A a => Ok a.
#[global] Instance result_bind : MBind result := fun A B k c =>
  match c with
  | Ok a => k a
  | Panic msg => Panic msg
  end.

Definition returns {A : Type} (c : result A) : bool :=
  match c with
  | Ok _ => true
  | Panic _ => false
  end.

(** A Go slice is either the nil slice or a (possibly empty) backing
    sequence; [len], [range] and [append] do not tell the two apart, a
    comparison with [nil] does. *)
Inductive slice (A : Type) : Type :=
| SliceNil
| Slice (l : list A).
Arguments SliceNil {A}.
Arguments Slice {A} l.

Definition elems {A : Type} (s : slice A) : list A :=
  match s with
  | SliceNil => []
  | Slice l => l
  end.

Definition is_nil {A : Type} (s : slice A) : bool :=
  match s with
  | SliceNil => true
  | Slice _ => false
  end.

Definition len {A : Type} (s : slice A) : Z := Z.of_nat (length (elems s)).

(** [make([]T, 0)] *)
Definition make_empty {A : Type} : slice A := Slice [].

(** [append(s, x)]: the result is never nil. *)
Definition append {A : Type} (s : slice A) (x : A) : slice A :=
  Slice (elems s ++ [x]).

(** [s[i]]: indexing out of range panics. *)
Definition index {A : Type} (s : slice A) (i : nat) : result A :=
  match elems s !! i with
  | Some x => Ok x
  | None => Panic "index out of range"
  end.

(** [*p]: dereferencing a nil pointer panics. *)
Definition deref {A : Type} (p : option A) : result A :=
  match p with
  | Some a => Ok a
  | None => Panic "nil pointer dereference"
  end.

(** The dynamic values held by an [interface{}] in the attribute bag:
    the nil interface, [string], [int], [bool], [[]interface{}] and
    [map[string]interface{}]. *)
#[warnings="-register-all"] Inductive value : Type :=
| VNil
| VString (s : string)
| VInt (n : Z)
| VBool (b : bool)
| VList (l : slice value)
| VMap (m : gmap string value).

(** [m[k]] on a Go map: a missing key reads as the zero value, here the
    nil interface. *)
Definition map_index (m : gmap string value) (k : string) : value :=
  default VNil (m !! k).

(** Single-result type assertions [v.(T)]: they panic on any other dynamic
    type, the nil interface included. *)
Definition assert_string (v : value) : result string :=
  match v with
  | VString s => Ok s
  | _ => Panic "interface conversion: interface {} is not string"
  end.

Definition assert_int (v : value) : result Z :=
  match v with
  | VInt n => Ok n
  | _ => Panic "interface conversion: interface {} is not int"
  end.

Definition assert_bool (v : value) : result bool :=
  match v with
  | VBool b => Ok b
  | _ => Panic "interface conversion: interface {} is not bool"
  end.

Definition assert_list (v : value) : result (slice value) :=
  match v with
  | VList l => Ok l
  | _ => Panic "interface conversion: interface {} is not []interface {}"
  end.

Definition assert_map (v : value) : result (gmap string value) :=
  match v with
  | VMap m => Ok m
  | _ => Panic "interface conversion: interface {} is not map[string]interface {}"
  end.

(** Two-result assertion [v, ok := i.(string)]: never panics. *)
Definition assert_string_ok (v : value) : string * bool :=
  match v with
  | VString s => (s, true)
  | _ => ("", false)
  end.

(** [int32(n)] on a Go [int]: the low 32 bits, read as two's complement. *)
Definition int32 (n : Z) : Z := (n + 2 ^ 31) mod 2 ^ 32 - 2 ^ 31.

(** Go [error] values.  [Errorf] keeps the format string and the arguments
    of a [fmt.Errorf] call instead of rendering them, so that an error
    wrapping another one still shows its cause.  The last three are the
    causes the resource-identifier helper reports. *)
#[warnings="-register-all"] Inductive error : Type :=
| Errorf (format : string) (args : list fmt_arg)
| MalformedPath (path : string)
| MissingSegment (name : string)
| EmptySegment (sourceId : string)
with fmt_arg : Type :=
| ArgString (s : string)
| ArgError (e : error).

(** ** The shared resource-identifier helper (package [azure]) *)

Module azure.

(** Modelled from the spec: the declaration of [azure.ResourceID] is not
    part of the excerpt.  The identifier is "decomposed into a resource-group
    name" and the "named segments" of its path; [ParseVirtualMachineID]
    reads the field [ResourceGroup] and pops segments by name. *)
Record ResourceID : Type := mkResourceID {
  ResourceGroup : string;
  Path : gmap string string;
}.

(** The three entry points of the helper that [ParseVirtualMachineID]
    calls, taken as parameters: their code is not part of the excerpt.  A
    Go result made of a pointer and an error, exactly one of them non-nil,
    is a sum; [PopSegment] has a pointer receiver and hands back the
    identifier it leaves behind. *)
Class Helper : Type := {
  ParseAzureResourceID : string -> ResourceID + error;
  PopSegment : ResourceID -> string -> (string * option error) * ResourceID;
  ValidateNoEmptySegments : ResourceID -> string -> option error;
}.

End azure.

(** ** Identifier parsing and validation *)

Record VirtualMachineID : Type := mkVirtualMachineID {
  ResourceGroup : string;
  Name : string;
}.

Section Identifier.
Context `{H : azure.Helper}.

Definition ParseVirtualMachineID (input : string)
  : option VirtualMachineID * option error :=
  match azure.ParseAzureResourceID input with
  | inr err =>
      (None, Some (Errorf "[ERROR] Unable to parse Virtual Machine ID %q: %+v"
                          [ArgString input; ArgError err]))
  | inl id =>
      let virtualMachine :=
        {| ResourceGroup := azure.ResourceGroup id; Name := "" |} in
      let '((name, err), id) := azure.PopSegment id "virtualMachines" in
      let virtualMachine :=
        {| ResourceGroup := ResourceGroup virtualMachine; Name := name |} in
      match err with
      | Some err => (None, Some err)
      | None =>
          match azure.ValidateNoEmptySegments id input with
          | Some err => (None, Some err)
          | None => (Some virtualMachine, None)
          end
      end
  end.

Definition ValidateVirtualMachineID (i : value) (k : string)
  : slice string * slice error :=
  let warnings : slice string := SliceNil in
  let errors : slice error := SliceNil in
  let '(v, ok) := assert_string_ok i in
  if negb ok then
    let errors :=
      append errors (Errorf "expected type of %q to be string" [ArgString k]) in
    (warnings, errors)
  else
    match ParseVirtualMachineID v with
    | (_, Some err) =>
        let errors :=
          append errors (Errorf "Can not parse %q as a resource id: %v"
                                [ArgString k; ArgError err]) in
        (warnings, errors)
    | (_, None) => (warnings, errors)
    end.

End Identifier.

(** Modelled from the spec: the helper of package [azure]
    ([ParseAzureResourceID], [PopSegment], [ValidateNoEmptySegments]) is
    owned outside the excerpt.  The spec gives the identifier format
    [/.../resourceGroups/<rg>/.../virtualMachines/<name>/...], says the
    parser "splits a resource path into named segments, extracts one
    required segment, rejects the input if any segment is empty or the
    required segment is missing", names the three causes "malformed path,
    missing segment, empty segment", and requires that "an identifier path
    containing an empty segment must fail [ValidateNoEmptySegments]". *)
Module azure_spec.

(** Modelled from the spec: the helper's splitting of a "slash-delimited
    path string", as [strings.Split(s, sep)] does it for a one-character
    separator. *)
Fixpoint split (sep : Ascii.ascii) (s : string) : list string :=
  match s with
  | EmptyString => [EmptyString]
  | String c rest =>
      if Ascii.eqb c sep then EmptyString :: split sep rest
      else match split sep rest with
           | [] => [String c EmptyString]
           | seg :: segs => String c seg :: segs
           end
  end.

(** Modelled from the spec: the path segments of a slash-delimited
    identifier, the text between the slashes after the leading one.  An
    identifier that does not start with a slash has no segments. *)
Definition path_segments (id : string) : option (list string) :=
  match id with
  | String "/"%char rest => Some (split "/"%char rest)
  | _ => None
  end.

(** Modelled from the spec: segments come in pairs, a name followed by its
    value; a name without a value is a malformed path. *)
Fixpoint named_segments (segs : list string) : option (list (string * string)) :=
  match segs with
  | [] => Some []
  | [_] => None
  | name :: val :: rest => ((name, val) ::.) <$> named_segments rest
  end.

(** Modelled from the spec: parsing splits the path into named segments
    and decomposes out the resource-group name; the one failure at this
    stage is a malformed path. *)
Definition ParseAzureResourceID (id : string) : azure.ResourceID + error :=
  match path_segments id ≫= named_segments with
  | None => inr (MalformedPath id)
  | Some kvs =>
      let path : gmap string string :=
        foldl (fun m kv => <[kv.1 := kv.2]> m) ∅ kvs in
      inl {| azure.ResourceGroup := default "" (path !! "resourceGroups");
             azure.Path := path |}
  end.

(** Modelled from the spec: extracting a required segment removes it from
    the path and fails with the missing-segment cause when it is absent. *)
Definition PopSegment (id : azure.ResourceID) (name : string)
  : (string * option error) * azure.ResourceID :=
  match azure.Path id !! name with
  | Some val =>
      ((val, None),
       {| azure.ResourceGroup := azure.ResourceGroup id;
          azure.Path := delete name (azure.Path id) |})
  | None => (("", Some (MissingSegment name)), id)
  end.

(** Modelled from the spec: whether the identifier path has an empty
    segment. *)
Definition has_empty_segment (sourceId : string) : bool :=
  existsb (String.eqb "") (default [] (path_segments sourceId)).

(** Modelled from the spec: the check fails exactly on an identifier path
    that contains an empty segment ("no empty path segments overall"). *)
Definition ValidateNoEmptySegments (id : azure.ResourceID) (sourceId : string)
  : option error :=
  if has_empty_segment sourceId then Some (EmptySegment sourceId) else None.

#[global] Instance helper : azure.Helper := {|
  azure.ParseAzureResourceID := ParseAzureResourceID;
  azure.PopSegment := PopSegment;
  azure.ValidateNoEmptySegments := ValidateNoEmptySegments;
|}.

End azure_spec.

(** ** Pointer helpers and the payload types of the compute client *)

(** Package [utils] is not part of the excerpt; expand uses it where it
    "sets optional nested structures". *)
Module utils.

(** Modelled from the spec: [utils.String] is missing; it hands back a
    non-nil pointer to its argument. *)
Definition String (input : string) : option string := Some input.

(** Modelled from the spec: [utils.Bool] is missing; it hands back a
    non-nil pointer to its argument. *)
Definition Bool (input : bool) : option bool := Some input.

(** Modelled from the spec: [utils.Int32] is missing; it hands back a
    non-nil pointer to its argument. *)
Definition Int32 (input : Z) : option Z := Some input.

End utils.

(** The part of the plugin SDK's [schema.ResourceData] this file writes:
    the connection info of the resource.  The file holds the resource data
    through a pointer, [None] being nil. *)
Module schema.

Record ResourceData : Type := mkResourceData {
  ConnInfo : gmap string string;
}.

(** [d.SetConnInfo(v)]: the method writes through its pointer receiver,
    so calling it on a nil [d] panics. *)
Definition SetConnInfo (d : option ResourceData) (v : gmap string string)
  : result (option ResourceData) :=
  _ ← deref d;
  mret (Some {| ConnInfo := v |}).

End schema.

(** The structs of the vendor's [compute] package, with the fields this
    file reads or writes; a pointer field is an [option], [None] being nil.
    [CachingTypes], [StorageAccountTypes], [DiffDiskOptions],
    [DiskCreateOptionTypes] and [OperatingSystemTypes] are string types, and
    converting to and from [string] changes nothing. *)
Module compute.

Definition CachingTypes : Type := string.
Definition StorageAccountTypes : Type := string.
Definition DiffDiskOptions : Type := string.
Definition DiskCreateOptionTypes : Type := string.
Definition OperatingSystemTypes : Type := string.

Definition DiskCreateOptionTypesFromImage : DiskCreateOptionTypes := "FromImage".

Record NetworkInterfaceReference : Type := mkNetworkInterfaceReference {
  NetworkInterfaceReference_ID : option string;
}.

(** The struct [compute.DiffDiskSettings]; [OSDisk] has a field of that
    name, so the type carries a suffix here. *)
Record DiffDiskSettingsStruct : Type := mkDiffDiskSettings {
  Option : DiffDiskOptions;
}.

Record DiskEncryptionSetParameters : Type := mkDiskEncryptionSetParameters {
  DiskEncryptionSetParameters_ID : option string;
}.

Record ManagedDiskParameters : Type := mkManagedDiskParameters {
  StorageAccountType : StorageAccountTypes;
  DiskEncryptionSet : option DiskEncryptionSetParameters;
}.

(** [compute.WindowsConfiguration]: only its presence is looked at. *)
Record WindowsConfigurationStruct : Type := mkWindowsConfiguration { }.

Record OSProfile : Type := mkOSProfile {
  WindowsConfiguration : option WindowsConfigurationStruct;
}.

Record VirtualMachineProperties : Type := mkVirtualMachineProperties {
  OsProfile : option OSProfile;
}.

Record OSDisk : Type := mkOSDisk {
  OsType : OperatingSystemTypes;
  Name : option string;
  Caching : CachingTypes;
  WriteAcceleratorEnabled : option bool;
  DiffDiskSettings : option DiffDiskSettingsStruct;
  CreateOption : DiskCreateOptionTypes;
  DiskSizeGB : option Z;
  ManagedDisk : option ManagedDiskParameters;
}.

(** Field assignments [disk.F = x]. *)
Definition set_DiskSizeGB (disk : OSDisk) (x : option Z) : OSDisk :=
  mkOSDisk (OsType disk) (Name disk) (Caching disk)
           (WriteAcceleratorEnabled disk) (DiffDiskSettings disk)
           (CreateOption disk) x (ManagedDisk disk).

Definition set_DiffDiskSettings (disk : OSDisk)
    (x : option DiffDiskSettingsStruct) : OSDisk :=
  mkOSDisk (OsType disk) (Name disk) (Caching disk)
           (WriteAcceleratorEnabled disk) x
           (CreateOption disk) (DiskSizeGB disk) (ManagedDisk disk).

Definition set_ManagedDisk (disk : OSDisk)
    (x : option ManagedDiskParameters) : OSDisk :=
  mkOSDisk (OsType disk) (Name disk) (Caching disk)
           (WriteAcceleratorEnabled disk) (DiffDiskSettings disk)
           (CreateOption disk) (DiskSizeGB disk) x.

Definition set_Name (disk : OSDisk) (x : option string) : OSDisk :=
  mkOSDisk (OsType disk) x (Caching disk)
           (WriteAcceleratorEnabled disk) (DiffDiskSettings disk)
           (CreateOption disk) (DiskSizeGB disk) (ManagedDisk disk).

Definition set_DiskEncryptionSet (md : ManagedDiskParameters)
    (x : option DiskEncryptionSetParameters) : ManagedDiskParameters :=
  mkManagedDiskParameters (StorageAccountType md) x.

End compute.

(** [p != nil] *)
Definition nonnil {A : Type} (p : option A) : bool :=
  match p with
  | Some _ => true
  | None => false
  end.

(** [for _, v := range l { s = body(s, v) }], a panic in the body ending
    the loop. *)
Fixpoint range {A S : Type} (body : S -> A -> result S) (l : list A) (s : S)
  : result S :=
  match l with
  | [] => mret s
  | v :: rest => s' ← body s v; range body rest s'
  end.

(** ** Network-interface references *)

Definition expandVirtualMachineNetworkInterfaceIDs (input : slice value)
  : result (slice compute.NetworkInterfaceReference) :=
  let output : slice compute.NetworkInterfaceReference := make_empty in
  range (fun output v =>
           s ← assert_string v;
           mret (append output
                   {| compute.NetworkInterfaceReference_ID := utils.String s |}))
        (elems input) output.

Definition flattenVirtualMachineNetworkInterfaceIDs
    (input : option (slice compute.NetworkInterfaceReference))
  : result (slice value) :=
  if negb (nonnil input) then mret (Slice [])
  else
    input ← deref input;
    let output : slice value := make_empty in
    range (fun output v =>
             if negb (nonnil (compute.NetworkInterfaceReference_ID v))
             then mret output
             else
               id ← deref (compute.NetworkInterfaceReference_ID v);
               mret (append output (VString id)))
          (elems input) output.

(** ** The OS-disk block *)

Definition ExpandVirtualMachineOSDisk (input : slice value)
    (osType : compute.OperatingSystemTypes) : result (option compute.OSDisk) :=
  input0 ← index input 0;
  raw ← assert_map input0;
  caching ← assert_string (map_index raw "caching");
  storageAccountType ← assert_string (map_index raw "storage_account_type");
  writeAccelerator ← assert_bool (map_index raw "write_accelerator_enabled");
  let disk :=
    {| compute.Caching := caching;
       compute.ManagedDisk :=
         Some {| compute.StorageAccountType := storageAccountType;
                 compute.DiskEncryptionSet := None |};
       compute.WriteAcceleratorEnabled := utils.Bool writeAccelerator;
       compute.CreateOption := compute.DiskCreateOptionTypesFromImage;
       compute.OsType := osType;
       compute.Name := None;
       compute.DiffDiskSettings := None;
       compute.DiskSizeGB := None |} in
  osDiskSize ← assert_int (map_index raw "disk_size_gb");
  let disk :=
    if osDiskSize >? 0
    then compute.set_DiskSizeGB disk (utils.Int32 (int32 osDiskSize))
    else disk in
  diffDiskSettingsRaw ← assert_list (map_index raw "diff_disk_settings");
  disk ←
    (if len diffDiskSettingsRaw >? 0 then
       diffDiskSettingsRaw0 ← index diffDiskSettingsRaw 0;
       diffDiskRaw ← assert_map diffDiskSettingsRaw0;
       option ← assert_string (map_index diffDiskRaw "option");
       mret (compute.set_DiffDiskSettings disk
               (Some {| compute.Option := option |}))
     else mret disk);
  id ← assert_string (map_index raw "disk_encryption_set_id");
  disk ←
    (if negb (String.eqb id "") then
       managedDisk ← deref (compute.ManagedDisk disk);
       mret (compute.set_ManagedDisk disk
               (Some (compute.set_DiskEncryptionSet managedDisk
                        (Some {| compute.DiskEncryptionSetParameters_ID :=
                                   utils.String id |}))))
     else mret disk);
  name ← assert_string (map_index raw "name");
  let disk :=
    if negb (String.eqb name "")
    then compute.set_Name disk (utils.String name)
    else disk in
  mret (Some disk).

Definition FlattenVirtualMachineOSDisk (input : option compute.OSDisk)
  : result (slice value) :=
  if negb (nonnil input) then mret (Slice [])
  else
    input ← deref input;
    let diffDiskSettings : slice value := make_empty in
    diffDiskSettings ←
      (if nonnil (compute.DiffDiskSettings input) then
         settings ← deref (compute.DiffDiskSettings input);
         mret (append diffDiskSettings
                 (VMap {[ "option" := VString (compute.Option settings) ]}))
       else mret diffDiskSettings);
    let diskSizeGb := 0 in
    diskSizeGb ←
      (if nonnil (compute.DiskSizeGB input) then
         size ← deref (compute.DiskSizeGB input);
         if negb (size =? 0) then
           size ← deref (compute.DiskSizeGB input);
           mret size
         else mret diskSizeGb
       else mret diskSizeGb);
    let name := "" in
    name ←
      (if nonnil (compute.Name input) then deref (compute.Name input)
       else mret name);
    let diskEncryptionSetId := "" in
    let storageAccountType := "" in
    '(diskEncryptionSetId, storageAccountType) ←
      (if nonnil (compute.ManagedDisk input) then
         managedDisk ← deref (compute.ManagedDisk input);
         let storageAccountType := compute.StorageAccountType managedDisk in
         if nonnil (compute.DiskEncryptionSet managedDisk) then
           encryptionSet ← deref (compute.DiskEncryptionSet managedDisk);
           if nonnil (compute.DiskEncryptionSetParameters_ID encryptionSet) then
             id ← deref (compute.DiskEncryptionSetParameters_ID encryptionSet);
             mret (id, storageAccountType)
           else mret (diskEncryptionSetId, storageAccountType)
         else mret (diskEncryptionSetId, storageAccountType)
       else mret (diskEncryptionSetId, storageAccountType));
    let writeAcceleratorEnabled := false in
    writeAcceleratorEnabled ←
      (if nonnil (compute.WriteAcceleratorEnabled input)
       then deref (compute.WriteAcceleratorEnabled input)
       else mret writeAcceleratorEnabled);
    mret (Slice [
      VMap {[ "caching" := VString (compute.Caching input);
              "disk_size_gb" := VInt diskSizeGb;
              "diff_disk_settings" := VList diffDiskSettings;
              "disk_encryption_set_id" := VString diskEncryptionSetId;
              "name" := VString name;
              "storage_account_type" := VString storageAccountType;
              "write_accelerator_enabled" := VBool writeAcceleratorEnabled ]}
    ]).


(** ** Connection information *)

Definition setVirtualMachineConnectionInformation
    (d : option schema.ResourceData)
    (input : option compute.VirtualMachineProperties)
  : result (option schema.ResourceData) :=
  if negb (nonnil input) then mret d
  else
    input ← deref input;
    let provisionerType := "ssh" in
    provisionerType ←
      (if nonnil (compute.OsProfile input) then
         profile ← deref (compute.OsProfile input);
         if nonnil (compute.WindowsConfiguration profile) then mret "winrm"
         else mret provisionerType
       else mret provisionerType);
    let ipAddress := "1.2.3.4" in
    schema.SetConnInfo d
      {[ "type" := provisionerType; "host" := ipAddress ]}.

(** ** The shape of the OS-disk attribute bag *)

Definition is_string (v : value) : bool :=
  match v with VString _ => true | _ => false end.

Definition is_int (v : value) : bool :=
  match v with VInt _ => true | _ => false end.

Definition is_bool (v : value) : bool :=
  match v with VBool _ => true | _ => false end.

(** What [ExpandVirtualMachineOSDisk] asserts about [diff_disk_settings]:
    a list, and when it is not empty a first element that is a map with a
    string under [option]. *)
Definition well_typed_diff_disk_settings (v : value) : bool :=
  match v with
  | VList s =>
      match elems s with
      | [] => true
      | VMap m :: _ => is_string (map_index m "option")
      | _ => false
      end
  | _ => false
  end.

(** What [ExpandVirtualMachineOSDisk] asserts about its input: a first
    element that is a map holding a value of the schema's type under each
    of the seven keys. *)
Definition well_typed_os_disk_bag (input : slice value) : bool :=
  match elems input with
  | VMap raw :: _ =>
      is_string (map_index raw "caching")
      && is_string (map_index raw "storage_account_type")
      && is_bool (map_index raw "write_accelerator_enabled")
      && is_int (map_index raw "disk_size_gb")
      && well_typed_diff_disk_settings (map_index raw "diff_disk_settings")
      && is_string (map_index raw "disk_encryption_set_id")
      && is_string (map_index raw "name")
  | _ => false
  end.

(** [diff_disk_settings] in [VirtualMachineOSDiskSchema]: a list of at
    most one block ([MaxItems: 1]) whose only attribute is the string
    [option]. *)
Definition valid_diff_disk_settings (v : value) : bool :=
  match v with
  | VList s =>
      match elems s with
      | [] => true
      | [VMap m] =>
          bool_decide (dom m = {[ "option" ]}) && is_string (map_index m "option")
      | _ => false
      end
  | _ => false
  end.

(** [IntBetween(0, 1023)] on [disk_size_gb]. *)
Definition valid_disk_size_gb (v : value) : bool :=
  match v with
  | VInt n => (0 <=? n) && (n <=? 1023)
  | _ => false
  end.

(** The structural part of [VirtualMachineOSDiskSchema]: one block
    ([Required], [MaxItems: 1]), every attribute of its declared type,
    [disk_size_gb] within [IntBetween(0, 1023)].  The string enumerations
    and the resource-id validator of the schema play no part in the
    mapping and are left out, so a bag the schema accepts is valid here. *)
Definition valid_os_disk_bag (input : slice value) : bool :=
  match elems input with
  | [VMap raw] =>
      is_string (map_index raw "caching")
      && is_string (map_index raw "storage_account_type")
      && is_bool (map_index raw "write_accelerator_enabled")
      && valid_disk_size_gb (map_index raw "disk_size_gb")
      && valid_diff_disk_settings (map_index raw "diff_disk_settings")
      && is_string (map_index raw "disk_encryption_set_id")
      && is_string (map_index raw "name")
  | _ => false
  end.

(** What expand makes of the [diff_disk_settings] list [s]: nothing when
    it is empty, the option of its first block otherwise. *)
Definition expanded_diff_disk_settings (s : slice value)
    (settings : option compute.DiffDiskSettingsStruct) : Prop :=
  match elems s with
  | [] => settings = None
  | VMap m :: _ =>
      exists o, map_index m "option" = VString o
                /\ settings = Some {| compute.Option := o |}
  | _ => False
  end.

(** A bag as the block's schema produces it, used to run the mappings. *)
Definition sample_os_disk_fields : gmap string value :=
  {[ "caching" := VString "ReadWrite";
     "disk_size_gb" := VInt 30;
     "diff_disk_settings" :=
       VList (Slice [VMap {[ "option" := VString "Local" ]}]);
     "disk_encryption_set_id" := VString "";
     "name" := VString "osdisk";
     "storage_account_type" := VString "Standard_LRS";
     "write_accelerator_enabled" := VBool false ]}.

Definition sample_os_disk_bag : slice value :=
  Slice [VMap sample_os_disk_fields].

(** ** Acceptance checks of the site-recovery resources
    ([azurerm/resource_arm_site_recovery_fabric_test.go]) *)

(** The part of the plugin SDK's [terraform.State] the checks read: the
    resources of the root module, each a pointer to a resource state whose
    primary instance carries the attributes. *)
Module terraform.

Record InstanceState : Type := mkInstanceState {
  Attributes : gmap string string;
}.

Record ResourceState : Type := mkResourceState {
  Primary : option InstanceState;
}.

Record ModuleState : Type := mkModuleState {
  Resources : gmap string (option ResourceState);
}.

(** The module at the root path, when the state has one. *)
Record State : Type := mkState {
  Root : option ModuleState;
}.

(** [s.RootModule()]: never nil; the SDK panics when the state has no
    root module. *)
Definition RootModule (s : State) : result ModuleState :=
  match Root s with
  | Some root => Ok root
  | None => Panic "missing root module"
  end.

End terraform.

(** [http.StatusNotFound] *)
Definition StatusNotFound : Z := 404.

(** [client.Get(ctx, name)] of the client built for a resource group and a
    vault, taken as a parameter: the status code of the HTTP response the
    result carries (nil when it carries none) and the error. *)
Definition GetFunc : Type := string -> string -> string -> option Z * option error.

(** [m[k]] on a [map[string]string]: a missing key reads as the empty
    string. *)
Definition attribute (m : gmap string string) (k : string) : string :=
  default "" (m !! k).

(** The check is a closure over the three state names; the provider under
    test is taken as configured, so that its client is at hand. *)
Definition testCheckAzureRMSiteRecoveryFabricExists (Get : GetFunc)
    (resourceGroupStateName vaultStateName resourceStateName : string)
    (s : terraform.State) : result (option error) :=
  root ← terraform.RootModule s;
  match terraform.Resources root !! resourceGroupStateName with
  | None =>
      mret (Some (Errorf "Not found: %s" [ArgString resourceGroupStateName]))
  | Some resourceGroupState =>
      root ← terraform.RootModule s;
      match terraform.Resources root !! vaultStateName with
      | None => mret (Some (Errorf "Not found: %s" [ArgString vaultStateName]))
      | Some vaultState =>
          root ← terraform.RootModule s;
          match terraform.Resources root !! resourceStateName with
          | None =>
              mret (Some (Errorf "Not found: %s" [ArgString resourceStateName]))
          | Some fabricState =>
              resourceGroupState ← deref resourceGroupState;
              primary ← deref (terraform.Primary resourceGroupState);
              let resourceGroupName :=
                attribute (terraform.Attributes primary) "name" in
              vaultState ← deref vaultState;
              primary ← deref (terraform.Primary vaultState);
              let vaultName := attribute (terraform.Attributes primary) "name" in
              fabricState ← deref fabricState;
              primary ← deref (terraform.Primary fabricState);
              let fabricName := attribute (terraform.Attributes primary) "name" in
              let '(resp, err) := Get resourceGroupName vaultName fabricName in
              match err with
              | Some err =>
                  mret (Some (Errorf "Bad: Get on fabricClient: %+v"
                                     [ArgError err]))
              | None =>
                  statusCode ← deref resp;
                  if statusCode =? StatusNotFound then
                    mret (Some (Errorf "Bad: fabric: %q does not exist"
                                       [ArgString fabricName]))
                  else mret None
              end
          end
      end
  end.

Definition testCheckAzureRMSiteRecoveryReplicationPolicyExists (Get : GetFunc)
    (resourceGroupStateName vaultStateName policyStateName : string)
    (s : terraform.State) : result (option error) :=
  root ← terraform.RootModule s;
  match terraform.Resources root !! resourceGroupStateName with
  | None =>
      mret (Some (Errorf "Not found: %s" [ArgString resourceGroupStateName]))
  | Some resourceGroupState =>
      root ← terraform.RootModule s;
      match terraform.Resources root !! vaultStateName with
      | None => mret (Some (Errorf "Not found: %s" [ArgString vaultStateName]))
      | Some vaultState =>
          root ← terraform.RootModule s;
          match terraform.Resources root !! policyStateName with
          | None =>
              mret (Some (Errorf "Not found: %s" [ArgString policyStateName]))
          | Some policyState =>
              resourceGroupState ← deref resourceGroupState;
              primary ← deref (terraform.Primary resourceGroupState);
              let resourceGroupName :=
                attribute (terraform.Attributes primary) "name" in
              vaultState ← deref vaultState;
              primary ← deref (terraform.Primary vaultState);
              let vaultName := attribute (terraform.Attributes primary) "name" in
              policyState ← deref policyState;
              primary ← deref (terraform.Primary policyState);
              let policyName := attribute (terraform.Attributes primary) "name" in
              let '(resp, err) := Get resourceGroupName vaultName policyName in
              match err with
              | Some err =>
                  mret (Some (Errorf "Bad: Get on fabricClient: %+v"
                                     [ArgError err]))
              | None =>
                  statusCode ← deref resp;
                  if statusCode =? StatusNotFound then
                    mret (Some (Errorf "Bad: fabric: %q does not exist"
                                       [ArgString policyName]))
                  else mret None
              end
          end
      end
  end.

(** A state with the three resources of the test configuration, and one
    without the fabric. *)
Definition sample_resource (name : string) : option terraform.ResourceState :=
  Some {| terraform.Primary :=
            Some {| terraform.Attributes := {[ "name" := name ]} |} |}.

Definition sample_root : terraform.ModuleState :=
  {| terraform.Resources :=
       {[ "azurerm_resource_group.test" := sample_resource "acctestRG-1";
          "azurerm_recovery_services_vault.test" := sample_resource "acctest-vault-1";
          "azurerm_site_recovery_fabric.test" := sample_resource "acctest-fabric-1" ]} |}.

Definition sample_state : terraform.State :=
  {| terraform.Root := Some sample_root |}.

Definition sample_root_without_fabric : terraform.ModuleState :=
  {| terraform.Resources :=
       {[ "azurerm_resource_group.test" := sample_resource "acctestRG-1";
          "azurerm_recovery_services_vault.test" := sample_resource "acctest-vault-1" ]} |}.

Definition sample_state_without_fabric : terraform.State :=
  {| terraform.Root := Some sample_root_without_fabric |}.

(** The three resources, the fabric's state lacking its primary
    instance. *)
Definition sample_root_without_primary : terraform.ModuleState :=
  {| terraform.Resources :=
       {[ "azurerm_resource_group.test" := sample_resource "acctestRG-1";
          "azurerm_recovery_services_vault.test" := sample_resource "acctest-vault-1";
          "azurerm_site_recovery_fabric.test"
          := Some {| terraform.Primary := None |} ]} |}.

Definition sample_state_without_primary : terraform.State :=
  {| terraform.Root := Some sample_root_without_primary |}.

(** * Properties *)

(** ** The Go runtime model *)

Lemma bind_Ok {A B : Type} (a : A) (k : A -> result B) : Ok a ≫= k = k a.
Proof. reflexivity. Qed.

Lemma bind_Panic {A B : Type} (msg : string) (k : A -> result B) :
  Panic msg ≫= k = Panic msg.
Proof. reflexivity. Qed.

Lemma map_index_lookup (m : gmap string value) (k : string) (v : value) :
  map_index m k = v -> v <> VNil -> m !! k = Some v.
Proof.
  unfold map_index. destruct (m !! k) as [w|]; simpl; congruence.
Qed.

Lemma int32_small (n : Z) : - 2 ^ 31 <= n < 2 ^ 31 -> int32 n = n.
Proof.
  intros Hn. unfold int32.
  rewrite Z.mod_small by lia. lia.
Qed.

(** ** Identifiers *)

Section IdentifierFacts.
Context `{H : azure.Helper}.

(** The parser hands back a value or an error, never both and never
    neither. *)
Lemma ParseVirtualMachineID_cases (input : string) :
  (exists vm, ParseVirtualMachineID input = (Some vm, None))
  \/ (exists err, ParseVirtualMachineID input = (None, Some err)).
Proof.
  unfold ParseVirtualMachineID.
  destruct (azure.ParseAzureResourceID input) as [id|err]; [|by right; eexists].
  destruct (azure.PopSegment id "virtualMachines") as [[name [err|]] id'];
    [by right; eexists|].
  destruct (azure.ValidateNoEmptySegments id' input) as [err|];
    [by right; eexists | by left; eexists].
Qed.

End IdentifierFacts.

(** C8: [ValidateVirtualMachineID] is a total function into a
    (warnings, errors) pair, whatever the resource-identifier helper does:
    the errors list is non-empty exactly when the input is not a string or
    [ParseVirtualMachineID] reports an error on it, it then holds exactly
    one error, the warnings list is always empty, and both lists are empty
    for a string that parses. *)
Theorem ValidateVirtualMachineID_spec `{H : azure.Helper} (i : value) (k : string) :
  let '(warnings, errors) := ValidateVirtualMachineID i k in
  elems warnings = []
  /\ (elems errors <> [] <->
      is_string i = false
      \/ exists v err, i = VString v /\ (ParseVirtualMachineID v).2 = Some err)
  /\ (elems errors <> [] -> exists e, elems errors = [e])
  /\ ((exists v, i = VString v /\ (ParseVirtualMachineID v).2 = None) ->
      elems warnings = [] /\ elems errors = []).
Proof.
  unfold ValidateVirtualMachineID.
  destruct i as [| v | n | b | l | m]; simpl;
    try (split; [done|]; split; [split; [by left | done]|];
         split; [by eexists | by intros [v [? _]]]).
  destruct (ParseVirtualMachineID v) as [vm [err|]] eqn:Hparse; simpl.
  - split; [done|]. split; [|split; [by eexists|]].
    + split; [|done]. intros _. right. exists v, err.
      by rewrite Hparse.
    + intros [v' [Hv Hnone]]. injection Hv as <-.
      by rewrite Hparse in Hnone.
  - split; [done|]. split; [|split; [done | done]].
    split; [done|]. intros [Hf | [v' [err [Hv Herr]]]]; [done|].
    injection Hv as <-. by rewrite Hparse in Herr.
Qed.

(** ** Identifiers over the modelled helper *)

Lemma foldl_insert_lookup (kvs : list (string * string))
    (m : gmap string string) (k v : string) :
  foldl (fun m kv => <[kv.1 := kv.2]> m) m kvs !! k = Some v ->
  m !! k = Some v \/ k ∈ kvs.*1.
Proof.
  revert m. induction kvs as [|[k' v'] kvs IH]; intros m; simpl; [by left|].
  intros Hlook. destruct (IH _ Hlook) as [Hm | Hin].
  - destruct (decide (k' = k)) as [->|Hne].
    + right. apply elem_of_cons. by left.
    + left. by rewrite lookup_insert_ne in Hm.
  - right. apply elem_of_cons. by right.
Qed.

Lemma named_segments_names (segs : list string) :
  (forall kvs k, azure_spec.named_segments segs = Some kvs ->
                 k ∈ kvs.*1 -> k ∈ segs)
  /\ (forall a kvs k, azure_spec.named_segments (a :: segs) = Some kvs ->
                      k ∈ kvs.*1 -> k ∈ a :: segs).
Proof.
  induction segs as [|b segs [IH1 IH2]].
  - split.
    + intros kvs k [= <-] Hin. by apply elem_of_nil in Hin.
    + intros a kvs k Hns. discriminate Hns.
  - split; [apply IH2|].
    intros a kvs k Hns Hin. simpl in Hns.
    destruct (azure_spec.named_segments segs) as [kvs'|] eqn:Hrest;
      [|discriminate Hns].
    injection Hns as <-. simpl in Hin.
    apply elem_of_cons in Hin as [-> | Hin]; [apply elem_of_cons; by left|].
    apply elem_of_cons; right. apply elem_of_cons; right.
    by apply (IH1 kvs').
Qed.

(** A name the parsed identifier maps is one of the path's segments. *)
Lemma ParseAzureResourceID_path (input : string) (id : azure.ResourceID)
    (segs : list string) (k v : string) :
  azure_spec.ParseAzureResourceID input = inl id ->
  azure_spec.path_segments input = Some segs ->
  azure.Path id !! k = Some v ->
  k ∈ segs.
Proof.
  unfold azure_spec.ParseAzureResourceID. intros Hparse Hsegs Hlook.
  rewrite Hsegs in Hparse. simpl in Hparse.
  destruct (azure_spec.named_segments segs) as [kvs|] eqn:Hns;
    [|discriminate Hparse].
  injection Hparse as <-. simpl in Hlook.
  apply foldl_insert_lookup in Hlook as [Hempty | Hin].
  - by rewrite lookup_empty in Hempty.
  - by apply (proj1 (named_segments_names segs) kvs).
Qed.

Lemma has_empty_segment_true (input : string) (segs : list string) :
  azure_spec.path_segments input = Some segs ->
  "" ∈ segs ->
  azure_spec.has_empty_segment input = true.
Proof.
  intros Hsegs Hin. unfold azure_spec.has_empty_segment.
  rewrite Hsegs. simpl. apply existsb_exists.
  exists "". split; [by apply list_elem_of_In | reflexivity].
Qed.

(** C4: over the modelled helper, an identifier whose path has no
    [virtualMachines] segment is rejected: [ParseVirtualMachineID] returns
    no value and a non-nil error, and when the path is otherwise parseable
    that error is the missing-segment one. *)
Theorem ParseVirtualMachineID_missing_virtualMachines
    (input : string) (segs : list string) :
  azure_spec.path_segments input = Some segs ->
  "virtualMachines" ∉ segs ->
  exists err,
    ParseVirtualMachineID (H := azure_spec.helper) input = (None, Some err)
    /\ (forall id, azure_spec.ParseAzureResourceID input = inl id ->
                   err = MissingSegment "virtualMachines").
Proof.
  intros Hsegs Hnotin. unfold ParseVirtualMachineID. simpl.
  destruct (azure_spec.ParseAzureResourceID input) as [id|err] eqn:Hparse.
  - assert (azure.Path id !! "virtualMachines" = None) as Hnone.
    { destruct (azure.Path id !! "virtualMachines") as [v|] eqn:Hlook; [|done].
      exfalso. apply Hnotin.
      by apply (ParseAzureResourceID_path input id segs _ v). }
    unfold azure_spec.PopSegment. rewrite Hnone.
    eexists. split; [reflexivity|]. by intros id' _.
  - eexists. split; [reflexivity|]. intros id' Hid. discriminate Hid.
Qed.

Lemma ParseVirtualMachineID_missing_virtualMachines_witness :
  exists err,
    ParseVirtualMachineID (H := azure_spec.helper)
      "/subscriptions/s1/resourceGroups/rg1" = (None, Some err)
    /\ (forall id,
          azure_spec.ParseAzureResourceID
            "/subscriptions/s1/resourceGroups/rg1" = inl id ->
          err = MissingSegment "virtualMachines").
Proof.
  apply (ParseVirtualMachineID_missing_virtualMachines
           "/subscriptions/s1/resourceGroups/rg1"
           ["subscriptions"; "s1"; "resourceGroups"; "rg1"]).
  - reflexivity.
  - apply (bool_decide_unpack _). vm_compute. exact I.
Defined.

(** C5: over the modelled helper, an identifier path with an empty
    segment fails [ValidateNoEmptySegments] whatever is left of the
    identifier, and [ParseVirtualMachineID] rejects it with a non-nil
    error; so no parsed [VirtualMachineID] comes from such a path. *)
Theorem ParseVirtualMachineID_empty_segment
    (input : string) (segs : list string) :
  azure_spec.path_segments input = Some segs ->
  "" ∈ segs ->
  (forall id, azure_spec.ValidateNoEmptySegments id input
              = Some (EmptySegment input))
  /\ (exists err,
        ParseVirtualMachineID (H := azure_spec.helper) input = (None, Some err))
  /\ (forall vm err,
        ParseVirtualMachineID (H := azure_spec.helper) input <> (Some vm, err)).
Proof.
  intros Hsegs Hin.
  pose proof (has_empty_segment_true input segs Hsegs Hin) as Hempty.
  assert (forall id, azure_spec.ValidateNoEmptySegments id input
                     = Some (EmptySegment input)) as Hvalidate.
  { intros id. unfold azure_spec.ValidateNoEmptySegments. by rewrite Hempty. }
  assert (exists err,
    ParseVirtualMachineID (H := azure_spec.helper) input = (None, Some err))
    as [err Herr].
  { unfold ParseVirtualMachineID. simpl.
    destruct (azure_spec.ParseAzureResourceID input) as [id|e]; [|by eexists].
    destruct (azure_spec.PopSegment id "virtualMachines") as [[name [e|]] id'];
      [by eexists|].
    rewrite Hvalidate. by eexists. }
  split; [done|]. split; [by exists err|].
  intros vm e. rewrite Herr. discriminate.
Qed.

Lemma ParseVirtualMachineID_empty_segment_witness :
  (forall id,
     azure_spec.ValidateNoEmptySegments id
       "/subscriptions//resourceGroups/rg1/virtualMachines/vm1"
     = Some (EmptySegment
               "/subscriptions//resourceGroups/rg1/virtualMachines/vm1"))
  /\ (exists err,
        ParseVirtualMachineID (H := azure_spec.helper)
          "/subscriptions//resourceGroups/rg1/virtualMachines/vm1"
        = (None, Some err))
  /\ (forall vm err,
        ParseVirtualMachineID (H := azure_spec.helper)
          "/subscriptions//resourceGroups/rg1/virtualMachines/vm1"
        <> (Some vm, err)).
Proof.
  apply (ParseVirtualMachineID_empty_segment
           "/subscriptions//resourceGroups/rg1/virtualMachines/vm1"
           ["subscriptions"; ""; "resourceGroups"; "rg1";
            "virtualMachines"; "vm1"]).
  - reflexivity.
  - apply (bool_decide_unpack _). vm_compute. exact I.
Defined.

(** The parser does accept a well-formed identifier. *)
Example ParseVirtualMachineID_accepts :
  ParseVirtualMachineID (H := azure_spec.helper)
    "/subscriptions/s1/resourceGroups/rg1/providers/Microsoft.Compute/virtualMachines/vm1"
  = (Some {| ResourceGroup := "rg1"; Name := "vm1" |}, None).
Proof. vm_compute. reflexivity. Qed.

(** ** The OS-disk block *)

Lemma is_string_inv (v : value) : is_string v = true -> exists s, v = VString s.
Proof. destruct v; try discriminate. by eexists. Qed.

Lemma is_int_inv (v : value) : is_int v = true -> exists n, v = VInt n.
Proof. destruct v; try discriminate. by eexists. Qed.

Lemma is_bool_inv (v : value) : is_bool v = true -> exists b, v = VBool b.
Proof. destruct v; try discriminate. by eexists. Qed.

(** On a well-typed bag expand returns, and the payload is read off the
    bag field by field. *)

Lemma ExpandVirtualMachineOSDisk_Ok (input : slice value)
    (osType : compute.OperatingSystemTypes) :
  well_typed_os_disk_bag input = true ->
  exists raw rest c sat w n s e nm dds,
    elems input = VMap raw :: rest
    /\ map_index raw "caching" = VString c
    /\ map_index raw "storage_account_type" = VString sat
    /\ map_index raw "write_accelerator_enabled" = VBool w
    /\ map_index raw "disk_size_gb" = VInt n
    /\ map_index raw "diff_disk_settings" = VList s
    /\ map_index raw "disk_encryption_set_id" = VString e
    /\ map_index raw "name" = VString nm
    /\ expanded_diff_disk_settings s dds
    /\ ExpandVirtualMachineOSDisk input osType = Ok (Some
         {| compute.OsType := osType;
            compute.Name := if String.eqb nm "" then None else Some nm;
            compute.Caching := c;
            compute.WriteAcceleratorEnabled := Some w;
            compute.DiffDiskSettings := dds;
            compute.CreateOption := compute.DiskCreateOptionTypesFromImage;
            compute.DiskSizeGB := if n >? 0 then Some (int32 n) else None;
            compute.ManagedDisk := Some
              {| compute.StorageAccountType := sat;
                 compute.DiskEncryptionSet :=
                   if String.eqb e "" then None
                   else Some {| compute.DiskEncryptionSetParameters_ID := Some e |} |} |}).
Proof.
  unfold well_typed_os_disk_bag, ExpandVirtualMachineOSDisk, index.
  destruct (elems input) as [|[| | | | |raw] rest] eqn:Hin; try discriminate.
  intros Hwt.
  apply andb_prop in Hwt as [Hwt Hnm]. apply andb_prop in Hwt as [Hwt He].
  apply andb_prop in Hwt as [Hwt Hd]. apply andb_prop in Hwt as [Hwt Hn].
  apply andb_prop in Hwt as [Hwt Hw]. apply andb_prop in Hwt as [Hc Hsat].
  apply is_string_inv in Hc as [c Hc]. apply is_string_inv in Hsat as [sat Hsat].
  apply is_bool_inv in Hw as [w Hw]. apply is_int_inv in Hn as [n Hn].
  apply is_string_inv in He as [e He]. apply is_string_inv in Hnm as [nm Hnm].
  destruct (map_index raw "diff_disk_settings") as [| | | |s|] eqn:Hdiff;
    try discriminate.
  simpl. rewrite Hc, Hsat, Hw, Hn, He, Hnm, Hdiff. simpl.
  exists raw, rest, c, sat, w, n, s, e, nm.
  unfold expanded_diff_disk_settings, len. simpl in Hd.
  destruct (elems s) as [|[| | | | |m] more] eqn:Hs; try discriminate; simpl.
  - exists None. repeat (split; [done|]).
    by destruct (n >? 0), (String.eqb e ""), (String.eqb nm "").
  - apply is_string_inv in Hd as [o Ho].
    exists (Some {| compute.Option := o |}). repeat (split; [done|]).
    split; [by exists o|]. rewrite Ho. simpl.
    by destruct (n >? 0), (String.eqb e ""), (String.eqb nm "").
Qed.

(** Case analysis on every test left in the goal. *)
Ltac case_ifs :=
  repeat (match goal with
          | |- context [if ?b then _ else _] => destruct b
          end; simpl).

(** Expand returns on the well-typed bags and on no other input. *)
Lemma ExpandVirtualMachineOSDisk_returns (input : slice value)
    (osType : compute.OperatingSystemTypes) :
  returns (ExpandVirtualMachineOSDisk input osType)
  = well_typed_os_disk_bag input.
Proof.
  destruct (well_typed_os_disk_bag input) eqn:Hwt.
  - destruct (ExpandVirtualMachineOSDisk_Ok input osType Hwt)
      as (raw & rest & c & sat & w & n & s & e & nm & dds
          & _ & _ & _ & _ & _ & _ & _ & _ & _ & Hexp).
    by rewrite Hexp.
  - revert Hwt.
    unfold well_typed_os_disk_bag, ExpandVirtualMachineOSDisk, index, len.
    destruct (elems input) as [|[| | | | |raw] rest]; try done. simpl.
    destruct (map_index raw "caching"); simpl; try done.
    destruct (map_index raw "storage_account_type"); simpl; try done.
    destruct (map_index raw "write_accelerator_enabled"); simpl; try done.
    destruct (map_index raw "disk_size_gb"); simpl; try done.
    destruct (map_index raw "diff_disk_settings") as [| | | |l|]; simpl;
      try done.
    destruct (elems l) as [|[| | | | |m] more]; simpl; try done;
      try destruct (map_index m "option"); simpl; try done;
      destruct (map_index raw "disk_encryption_set_id"); simpl; try done;
      destruct (map_index raw "name"); simpl; try done;
      intros _; case_ifs; reflexivity.
Qed.

(** The block flatten builds from a non-nil payload. *)
Lemma FlattenVirtualMachineOSDisk_Some (disk : compute.OSDisk) :
  FlattenVirtualMachineOSDisk (Some disk) = Ok (Slice [
    VMap {[ "caching" := VString (compute.Caching disk);
            "disk_size_gb" := VInt (default 0 (compute.DiskSizeGB disk));
            "diff_disk_settings" :=
              VList (Slice
                (match compute.DiffDiskSettings disk with
                 | Some settings =>
                     [VMap {[ "option" := VString (compute.Option settings) ]}]
                 | None => []
                 end));
            "disk_encryption_set_id" :=
              VString (default ""
                ((compute.ManagedDisk disk ≫= compute.DiskEncryptionSet)
                   ≫= compute.DiskEncryptionSetParameters_ID));
            "name" := VString (default "" (compute.Name disk));
            "storage_account_type" :=
              VString (default ""
                (compute.StorageAccountType <$> compute.ManagedDisk disk));
            "write_accelerator_enabled" :=
              VBool (default false (compute.WriteAcceleratorEnabled disk)) ]}
  ]).
Proof.
  destruct disk as [osType name caching wae [dds|] co [size|] [[sat [[[id|]]|]]|]];
    destruct name, wae; unfold FlattenVirtualMachineOSDisk; simpl;
    try reflexivity.
  all: destruct (Z.eqb_spec size 0) as [->|]; reflexivity.
Qed.

(** Reading the seven attributes of a flattened block. *)
Lemma os_disk_map_index (v1 v2 v3 v4 v5 v6 v7 : value) :
  let m : gmap string value :=
    {[ "caching" := v1; "disk_size_gb" := v2; "diff_disk_settings" := v3;
       "disk_encryption_set_id" := v4; "name" := v5;
       "storage_account_type" := v6; "write_accelerator_enabled" := v7 ]} in
  map_index m "caching" = v1
  /\ map_index m "disk_size_gb" = v2
  /\ map_index m "diff_disk_settings" = v3
  /\ map_index m "disk_encryption_set_id" = v4
  /\ map_index m "name" = v5
  /\ map_index m "storage_account_type" = v6
  /\ map_index m "write_accelerator_enabled" = v7.
Proof. vm_compute. repeat split. Qed.

Lemma default_unless_empty (s : string) :
  default "" (if String.eqb s "" then None else Some s) = s.
Proof. by destruct (String.eqb_spec s "") as [->|]. Qed.

Lemma singleton_option_map (m : gmap string value) (o : string) :
  dom m = {[ "option" ]} ->
  map_index m "option" = VString o ->
  m = {[ "option" := VString o ]}.
Proof.
  intros Hdom Hopt. apply map_eq. intros k.
  destruct (decide (k = "option")) as [->|Hne].
  - rewrite lookup_singleton_eq. by apply map_index_lookup.
  - rewrite lookup_singleton_ne by done.
    apply not_elem_of_dom. rewrite Hdom. by apply not_elem_of_singleton.
Qed.

Lemma valid_os_disk_bag_inv (input : slice value) :
  valid_os_disk_bag input = true ->
  exists raw n s,
    elems input = [VMap raw]
    /\ well_typed_os_disk_bag input = true
    /\ map_index raw "disk_size_gb" = VInt n /\ 0 <= n <= 1023
    /\ map_index raw "diff_disk_settings" = VList s
    /\ (elems s = []
        \/ exists o, elems s = [VMap {[ "option" := VString o ]}]).
Proof.
  unfold valid_os_disk_bag, well_typed_os_disk_bag.
  destruct (elems input) as [|[| | | | |raw] [|? ?]]; try discriminate.
  intros Hv.
  apply andb_prop in Hv as [Hv Hnm]. apply andb_prop in Hv as [Hv He].
  apply andb_prop in Hv as [Hv Hd]. apply andb_prop in Hv as [Hv Hn].
  rewrite Hv, He, Hnm. simpl.
  destruct (map_index raw "disk_size_gb") as [| |n| | |] eqn:Hsize;
    try discriminate.
  destruct (map_index raw "diff_disk_settings") as [| | | |s|] eqn:Hsettings;
    try discriminate.
  exists raw, n, s. simpl in *.
  apply andb_prop in Hn as [Hlo Hhi].
  apply Z.leb_le in Hlo. apply Z.leb_le in Hhi.
  destruct (elems s) as [|[| | | | |m] [|? ?]]; try discriminate.
  - repeat (split; [done|]). by left.
  - apply andb_prop in Hd as [Hdom Hopt]. apply bool_decide_eq_true in Hdom.
    rewrite Hopt. repeat (split; [done|]). right.
    apply is_string_inv in Hopt as [o Hopt]. exists o.
    by rewrite (singleton_option_map m o Hdom Hopt).
Qed.

(** C1: for every valid OS-disk bag, flattening the expanded payload gives
    one block in which each of the seven attributes has the value the bag
    had: the six scalar attributes are equal, and [diff_disk_settings] is
    a list of the same elements.  Unset optionals are the zero values in
    the bag already, and come back as such. *)
Theorem FlattenVirtualMachineOSDisk_ExpandVirtualMachineOSDisk
    (input : slice value) (osType : compute.OperatingSystemTypes) :
  valid_os_disk_bag input = true ->
  exists raw out,
    elems input = [VMap raw]
    /\ ExpandVirtualMachineOSDisk input osType ≫= FlattenVirtualMachineOSDisk
       = Ok (Slice [VMap out])
    /\ map_index out "caching" = map_index raw "caching"
    /\ map_index out "storage_account_type"
       = map_index raw "storage_account_type"
    /\ map_index out "disk_encryption_set_id"
       = map_index raw "disk_encryption_set_id"
    /\ map_index out "disk_size_gb" = map_index raw "disk_size_gb"
    /\ map_index out "name" = map_index raw "name"
    /\ map_index out "write_accelerator_enabled"
       = map_index raw "write_accelerator_enabled"
    /\ exists s s',
         map_index raw "diff_disk_settings" = VList s
         /\ map_index out "diff_disk_settings" = VList s'
         /\ elems s' = elems s.
Proof.
  intros Hvalid.
  destruct (valid_os_disk_bag_inv input Hvalid)
    as (raw & n & s & Hin & Hwt & Hn & Hrange & Hs & Hdiff).
  destruct (ExpandVirtualMachineOSDisk_Ok input osType Hwt)
    as (raw' & rest & c & sat & w & n' & s' & e & nm & dds
        & Hin' & Hc & Hsat & Hw & Hn' & Hs' & He & Hnm & Hdds & Hexp).
  rewrite Hin in Hin'. injection Hin' as <- <-.
  rewrite Hn in Hn'. injection Hn' as <-.
  rewrite Hs in Hs'. injection Hs' as <-.
  exists raw. eexists. split; [done|].
  rewrite Hexp, bind_Ok, FlattenVirtualMachineOSDisk_Some.
  split; [reflexivity|]. simpl.
  edestruct os_disk_map_index as (Ec & En & Ed & Ee & Enm & Es & Ew).
  rewrite Ec, En, Ed, Ee, Enm, Es, Ew. clear Ec En Ed Ee Enm Es Ew.
  rewrite Hc, Hsat, Hw, Hn, He, Hnm, Hs.
  repeat split.
  - by destruct (String.eqb_spec e "") as [->|].
  - f_equal. destruct (Z.gtb_spec n 0); simpl; [|lia].
    apply int32_small. lia.
  - by rewrite default_unless_empty.
  - eexists _, _. split; [reflexivity|]. split; [reflexivity|]. simpl.
    unfold expanded_diff_disk_settings in Hdds.
    destruct Hdiff as [Hnil | [o Hone]].
    + rewrite Hnil in *. by rewrite Hdds.
    + rewrite Hone in *. destruct Hdds as (o' & Ho' & ->). simpl.
      vm_compute in Ho'. by injection Ho' as <-.
Qed.

Lemma FlattenVirtualMachineOSDisk_ExpandVirtualMachineOSDisk_witness :
  exists raw out,
    elems sample_os_disk_bag = [VMap raw]
    /\ ExpandVirtualMachineOSDisk sample_os_disk_bag "Linux"
         ≫= FlattenVirtualMachineOSDisk
       = Ok (Slice [VMap out])
    /\ map_index out "caching" = map_index raw "caching"
    /\ map_index out "storage_account_type"
       = map_index raw "storage_account_type"
    /\ map_index out "disk_encryption_set_id"
       = map_index raw "disk_encryption_set_id"
    /\ map_index out "disk_size_gb" = map_index raw "disk_size_gb"
    /\ map_index out "name" = map_index raw "name"
    /\ map_index out "write_accelerator_enabled"
       = map_index raw "write_accelerator_enabled"
    /\ exists s s',
         map_index raw "diff_disk_settings" = VList s
         /\ map_index out "diff_disk_settings" = VList s'
         /\ elems s' = elems s.
Proof.
  apply (FlattenVirtualMachineOSDisk_ExpandVirtualMachineOSDisk
           sample_os_disk_bag "Linux").
  vm_compute. reflexivity.
Defined.

(** Outside the schema's range the size is not reproduced: a negative
    size is dropped, a size beyond 32 bits is truncated. *)
Example disk_size_gb_out_of_range :
  ExpandVirtualMachineOSDisk
    (Slice [VMap (<["disk_size_gb" := VInt (-1)]> sample_os_disk_fields)])
    "Linux" ≫= FlattenVirtualMachineOSDisk
  = Ok (Slice [VMap (<["disk_size_gb" := VInt 0]> sample_os_disk_fields)])
  /\ ExpandVirtualMachineOSDisk
       (Slice [VMap (<["disk_size_gb" := VInt (2 ^ 32 + 5)]>
                       sample_os_disk_fields)])
       "Linux" ≫= FlattenVirtualMachineOSDisk
     = Ok (Slice [VMap (<["disk_size_gb" := VInt 5]> sample_os_disk_fields)]).
Proof. split; vm_compute; reflexivity. Qed.

(** C2, as the code has it: a nil payload flattens to the empty list; a
    non-nil payload flattens to exactly one block, in which every absent
    pointer is replaced by the zero value of its attribute. *)
Theorem FlattenVirtualMachineOSDisk_shape :
  FlattenVirtualMachineOSDisk None = Ok (Slice [])
  /\ forall disk : compute.OSDisk,
       exists out,
         FlattenVirtualMachineOSDisk (Some disk) = Ok (Slice [VMap out])
         /\ dom out = {[ "caching"; "disk_size_gb"; "diff_disk_settings";
                         "disk_encryption_set_id"; "name";
                         "storage_account_type"; "write_accelerator_enabled" ]}
         /\ map_index out "caching" = VString (compute.Caching disk)
         /\ map_index out "disk_size_gb"
            = VInt (default 0 (compute.DiskSizeGB disk))
         /\ map_index out "diff_disk_settings"
            = VList (Slice
                (match compute.DiffDiskSettings disk with
                 | Some settings =>
                     [VMap {[ "option" := VString (compute.Option settings) ]}]
                 | None => []
                 end))
         /\ map_index out "disk_encryption_set_id"
            = VString (default ""
                ((compute.ManagedDisk disk ≫= compute.DiskEncryptionSet)
                   ≫= compute.DiskEncryptionSetParameters_ID))
         /\ map_index out "name" = VString (default "" (compute.Name disk))
         /\ map_index out "storage_account_type"
            = VString (default ""
                (compute.StorageAccountType <$> compute.ManagedDisk disk))
         /\ map_index out "write_accelerator_enabled"
            = VBool (default false (compute.WriteAcceleratorEnabled disk)).
Proof.
  split; [reflexivity|]. intros disk. eexists.
  split; [apply FlattenVirtualMachineOSDisk_Some|].
  split; [by vm_compute|]. apply os_disk_map_index.
Qed.

(** C2 as stated fails at the nil payload: the result has no element. *)
Lemma FlattenVirtualMachineOSDisk_nil_not_singleton :
  exists out,
    FlattenVirtualMachineOSDisk None = Ok out /\ length (elems out) <> 1%nat.
Proof. exists (Slice []). split; [reflexivity | discriminate]. Qed.

(** C3: when the bag's [disk_size_gb] is 0, expand leaves [DiskSizeGB]
    nil; and a payload whose [DiskSizeGB] is nil flattens to
    [disk_size_gb] 0. *)
Theorem disk_size_gb_zero_is_unset
    (input : slice value) (osType : compute.OperatingSystemTypes)
    (raw : gmap string value) (rest : list value) :
  well_typed_os_disk_bag input = true ->
  elems input = VMap raw :: rest ->
  map_index raw "disk_size_gb" = VInt 0 ->
  (exists disk,
     ExpandVirtualMachineOSDisk input osType = Ok (Some disk)
     /\ compute.DiskSizeGB disk = None)
  /\ (forall disk,
        compute.DiskSizeGB disk = None ->
        exists out,
          FlattenVirtualMachineOSDisk (Some disk) = Ok (Slice [VMap out])
          /\ map_index out "disk_size_gb" = VInt 0).
Proof.
  intros Hwt Hin Hzero. split.
  - destruct (ExpandVirtualMachineOSDisk_Ok input osType Hwt)
      as (raw' & rest' & c & sat & w & n & s & e & nm & dds
          & Hin' & _ & _ & _ & Hn & _ & _ & _ & _ & Hexp).
    rewrite Hin in Hin'. injection Hin' as <- <-.
    rewrite Hzero in Hn. injection Hn as <-.
    eexists. split; [exact Hexp | reflexivity].
  - intros disk Hnil. eexists.
    split; [apply FlattenVirtualMachineOSDisk_Some|].
    edestruct os_disk_map_index as (_ & En & _). rewrite En.
    by rewrite Hnil.
Qed.

Lemma disk_size_gb_zero_is_unset_witness :
  (exists disk,
     ExpandVirtualMachineOSDisk
       (Slice [VMap (<["disk_size_gb" := VInt 0]> sample_os_disk_fields)])
       "Windows" = Ok (Some disk)
     /\ compute.DiskSizeGB disk = None)
  /\ (forall disk,
        compute.DiskSizeGB disk = None ->
        exists out,
          FlattenVirtualMachineOSDisk (Some disk) = Ok (Slice [VMap out])
          /\ map_index out "disk_size_gb" = VInt 0).
Proof.
  apply (disk_size_gb_zero_is_unset
           (Slice [VMap (<["disk_size_gb" := VInt 0]> sample_os_disk_fields)])
           "Windows"
           (<["disk_size_gb" := VInt 0]> sample_os_disk_fields) []).
  - vm_compute. reflexivity.
  - reflexivity.
  - vm_compute. reflexivity.
Defined.

(** C6: a non-empty [diff_disk_settings] list expands to a non-nil
    [DiffDiskSettings] carrying the option of its first block, and that
    payload flattens to a one-element list holding the option; an empty
    list expands to a nil [DiffDiskSettings], which flattens to the empty
    list. *)
Theorem diff_disk_settings_mapping
    (input : slice value) (osType : compute.OperatingSystemTypes)
    (raw : gmap string value) (rest : list value) (s : slice value) :
  well_typed_os_disk_bag input = true ->
  elems input = VMap raw :: rest ->
  map_index raw "diff_disk_settings" = VList s ->
  exists disk out,
    ExpandVirtualMachineOSDisk input osType = Ok (Some disk)
    /\ FlattenVirtualMachineOSDisk (Some disk) = Ok (Slice [VMap out])
    /\ match elems s with
       | [] =>
           compute.DiffDiskSettings disk = None
           /\ map_index out "diff_disk_settings" = VList (Slice [])
       | first :: _ =>
           exists m o,
             first = VMap m
             /\ map_index m "option" = VString o
             /\ compute.DiffDiskSettings disk = Some {| compute.Option := o |}
             /\ map_index out "diff_disk_settings"
                = VList (Slice [VMap {[ "option" := VString o ]}])
       end.
Proof.
  intros Hwt Hin Hs.
  destruct (ExpandVirtualMachineOSDisk_Ok input osType Hwt)
    as (raw' & rest' & c & sat & w & n & s' & e & nm & dds
        & Hin' & _ & _ & _ & _ & Hs' & _ & _ & Hdds & Hexp).
  rewrite Hin in Hin'. injection Hin' as <- <-.
  rewrite Hs in Hs'. injection Hs' as <-.
  eexists _, _. split; [exact Hexp|].
  split; [apply FlattenVirtualMachineOSDisk_Some|].
  edestruct os_disk_map_index as (_ & _ & Ed & _). rewrite Ed. simpl.
  unfold expanded_diff_disk_settings in Hdds.
  destruct (elems s) as [|[| | | | |m] more]; try done.
  - by rewrite Hdds.
  - destruct Hdds as (o & Ho & ->). by exists m, o.
Qed.

Lemma diff_disk_settings_mapping_witness :
  exists disk out,
    ExpandVirtualMachineOSDisk sample_os_disk_bag "Linux" = Ok (Some disk)
    /\ FlattenVirtualMachineOSDisk (Some disk) = Ok (Slice [VMap out])
    /\ exists m o,
         VMap {[ "option" := VString "Local" ]} = VMap m
         /\ map_index m "option" = VString o
         /\ compute.DiffDiskSettings disk = Some {| compute.Option := o |}
         /\ map_index out "diff_disk_settings"
            = VList (Slice [VMap {[ "option" := VString o ]}]).
Proof.
  apply (diff_disk_settings_mapping sample_os_disk_bag "Linux"
           sample_os_disk_fields []
           (Slice [VMap {[ "option" := VString "Local" ]}])).
  - vm_compute. reflexivity.
  - reflexivity.
  - vm_compute. reflexivity.
Defined.

(** C7: flattening a non-nil payload yields [write_accelerator_enabled]
    false when the [WriteAcceleratorEnabled] pointer is nil, and the
    pointed-to boolean otherwise. *)
Theorem write_accelerator_enabled_flatten (disk : compute.OSDisk) :
  exists out,
    FlattenVirtualMachineOSDisk (Some disk) = Ok (Slice [VMap out])
    /\ map_index out "write_accelerator_enabled"
       = VBool (match compute.WriteAcceleratorEnabled disk with
                | Some enabled => enabled
                | None => false
                end).
Proof.
  eexists. split; [apply FlattenVirtualMachineOSDisk_Some|].
  edestruct os_disk_map_index as (_ & _ & _ & _ & _ & _ & Ew). rewrite Ew.
  by destruct (compute.WriteAcceleratorEnabled disk).
Qed.

(** ** Network-interface references *)

Lemma expand_range (ids : list string)
    (acc : list compute.NetworkInterfaceReference) :
  range (fun output v =>
           s ← assert_string v;
           mret (append output
                   {| compute.NetworkInterfaceReference_ID := utils.String s |}))
        (VString <$> ids) (Slice acc)
  = Ok (Slice (acc ++ (compute.mkNetworkInterfaceReference ∘ Some <$> ids))).
Proof.
  revert acc. induction ids as [|id ids IH]; intros acc; simpl.
  - by rewrite app_nil_r.
  - unfold append. simpl. rewrite IH. by rewrite <- app_assoc.
Qed.


Lemma flatten_range (refs : list compute.NetworkInterfaceReference)
    (acc : list value) :
  range (fun output v =>
           if negb (nonnil (compute.NetworkInterfaceReference_ID v))
           then mret output
           else
             id ← deref (compute.NetworkInterfaceReference_ID v);
             mret (append output (VString id)))
        refs (Slice acc)
  = Ok (Slice (acc ++ (VString <$> omap compute.NetworkInterfaceReference_ID refs))).
Proof.
  revert acc. induction refs as [|[[id|]] refs IH]; intros acc; simpl.
  - by rewrite app_nil_r.
  - unfold append. simpl. rewrite IH. by rewrite <- app_assoc.
  - apply IH.
Qed.

Lemma omap_references (ids : list string) :
  omap compute.NetworkInterfaceReference_ID
       (compute.mkNetworkInterfaceReference ∘ Some <$> ids) = ids.
Proof. induction ids as [|id ids IH]; [done|]. simpl. f_equal. exact IH. Qed.

Lemma flattenVirtualMachineNetworkInterfaceIDs_Some
    (refs : slice compute.NetworkInterfaceReference) :
  flattenVirtualMachineNetworkInterfaceIDs (Some refs)
  = Ok (Slice (VString <$> omap compute.NetworkInterfaceReference_ID (elems refs))).
Proof.
  unfold flattenVirtualMachineNetworkInterfaceIDs, make_empty.
  cbn [nonnil negb deref]. rewrite bind_Ok.
  apply (flatten_range (elems refs) []).
Qed.

(** C10: flattening the expansion of a list of ID strings gives the list
    back (the nil list comes back as the empty one); flatten of a nil
    pointer is an empty list that is not nil; and flatten keeps, in order,
    exactly the IDs of the references whose ID pointer is not nil. *)
Theorem flatten_expand_VirtualMachineNetworkInterfaceIDs :
  (forall ids : list string,
     expandVirtualMachineNetworkInterfaceIDs (Slice (VString <$> ids))
       ≫= (fun refs => flattenVirtualMachineNetworkInterfaceIDs (Some refs))
     = Ok (Slice (VString <$> ids)))
  /\ expandVirtualMachineNetworkInterfaceIDs SliceNil
       ≫= (fun refs => flattenVirtualMachineNetworkInterfaceIDs (Some refs))
     = Ok (Slice [])
  /\ (exists output,
        flattenVirtualMachineNetworkInterfaceIDs None = Ok output
        /\ elems output = [] /\ is_nil output = false)
  /\ (forall refs : slice compute.NetworkInterfaceReference,
        flattenVirtualMachineNetworkInterfaceIDs (Some refs)
        = Ok (Slice (VString <$>
                       omap compute.NetworkInterfaceReference_ID (elems refs)))).
Proof.
  split; [|split; [reflexivity|split]].
  - intros ids. unfold expandVirtualMachineNetworkInterfaceIDs, make_empty.
    cbn [elems]. rewrite (expand_range ids []), bind_Ok.
    rewrite flattenVirtualMachineNetworkInterfaceIDs_Some.
    cbn [elems app]. by rewrite omap_references.
  - by exists (Slice []).
  - apply flattenVirtualMachineNetworkInterfaceIDs_Some.
Qed.

(** ** Termination of the mapping functions *)


(** The setter picks [winrm] exactly when a Windows configuration is
    present, and always writes the placeholder host. *)
Example setVirtualMachineConnectionInformation_windows :
  setVirtualMachineConnectionInformation
    (Some {| schema.ConnInfo := ∅ |})
    (Some {| compute.OsProfile :=
               Some {| compute.WindowsConfiguration :=
                         Some compute.mkWindowsConfiguration |} |})
  = Ok (Some {| schema.ConnInfo :=
                  {[ "type" := "winrm"; "host" := "1.2.3.4" ]} |}).
Proof. vm_compute. reflexivity. Qed.


(** * Further properties *)

(** ** Identifiers *)

(** X2: [ValidateVirtualMachineID] reports no error exactly for the
    strings that [ParseVirtualMachineID] turns into a value; the key [k]
    plays no part in the verdict. *)
Theorem ValidateVirtualMachineID_accepts `{H : azure.Helper}
    (i : value) (k : string) :
  elems (ValidateVirtualMachineID i k).2 = []
  <-> exists v vm, i = VString v /\ ParseVirtualMachineID v = (Some vm, None).
Proof.
  unfold ValidateVirtualMachineID.
  destruct i as [| v | n | b | l | m]; simpl;
    try (split; [discriminate | by intros (v & vm & ? & _)]).
  destruct (ParseVirtualMachineID_cases v) as [[vm Hvm] | [err Herr]].
  - rewrite Hvm. simpl. split; [|done]. intros _. by exists v, vm.
  - rewrite Herr. simpl. split; [discriminate|].
    intros (v' & vm & [= <-] & Hvm). by rewrite Herr in Hvm.
Qed.

(** ** Network-interface references *)

Lemma expand_range_inv (l : list value)
    (acc : list compute.NetworkInterfaceReference)
    (refs : slice compute.NetworkInterfaceReference) :
  range (fun output v =>
           s ← assert_string v;
           mret (append output
                   {| compute.NetworkInterfaceReference_ID := utils.String s |}))
        l (Slice acc) = Ok refs ->
  exists ids : list string,
    l = VString <$> ids
    /\ refs = Slice (acc ++ (compute.mkNetworkInterfaceReference ∘ Some <$> ids)).
Proof.
  revert acc. induction l as [|v l IH]; intros acc; simpl.
  - intros [= <-]. exists []. by rewrite app_nil_r.
  - destruct v as [| s | | | |]; simpl; try discriminate.
    unfold append. simpl. intros Hrange.
    destruct (IH _ Hrange) as (ids & -> & ->).
    exists (s :: ids). by rewrite <- app_assoc.
Qed.

(** X3: [expandVirtualMachineNetworkInterfaceIDs] returns exactly on the
    lists that hold only strings, and then yields one reference per
    string, in order, each with a non-nil ID, in a slice that is not nil. *)
Theorem expandVirtualMachineNetworkInterfaceIDs_Ok (input : slice value)
    (refs : slice compute.NetworkInterfaceReference) :
  expandVirtualMachineNetworkInterfaceIDs input = Ok refs
  <-> exists ids : list string,
        elems input = VString <$> ids
        /\ refs = Slice (compute.mkNetworkInterfaceReference ∘ Some <$> ids).
Proof.
  unfold expandVirtualMachineNetworkInterfaceIDs, make_empty. split.
  - intros Hrange. by apply (expand_range_inv _ []) in Hrange.
  - intros (ids & -> & ->). apply (expand_range ids []).
Qed.

(** X4: what flatten returns is always accepted by expand, and the
    references that come back carry exactly the non-nil IDs of the
    original ones, in order; a nil pointer comes back as no reference. *)
Theorem expand_flatten_VirtualMachineNetworkInterfaceIDs :
  (forall refs : slice compute.NetworkInterfaceReference,
     flattenVirtualMachineNetworkInterfaceIDs (Some refs)
       ≫= expandVirtualMachineNetworkInterfaceIDs
     = Ok (Slice (compute.mkNetworkInterfaceReference ∘ Some
                    <$> omap compute.NetworkInterfaceReference_ID (elems refs))))
  /\ flattenVirtualMachineNetworkInterfaceIDs None
       ≫= expandVirtualMachineNetworkInterfaceIDs
     = Ok (Slice []).
Proof.
  split; [|reflexivity]. intros refs.
  rewrite flattenVirtualMachineNetworkInterfaceIDs_Some, bind_Ok.
  unfold expandVirtualMachineNetworkInterfaceIDs, make_empty. cbn [elems].
  apply (expand_range _ []).
Qed.

Lemma omap_cons {A B : Type} (f : A -> option B) (a : A) (l : list A) :
  omap f (a :: l)
  = match f a with Some b => b :: omap f l | None => omap f l end.
Proof. reflexivity. Qed.

Lemma omap_length_le {A B : Type} (f : A -> option B) (l : list A) :
  (length (omap f l) <= length l)%nat.
Proof.
  induction l as [|a l IH]; [done|].
  rewrite omap_cons. destruct (f a); simpl; lia.
Qed.

Lemma omap_length_eq {A B : Type} (f : A -> option B) (l : list A) :
  length (omap f l) = length l <-> Forall (fun a => f a <> None) l.
Proof.
  induction l as [|a l IH].
  - split; [by constructor | done].
  - pose proof (omap_length_le f l) as Hle. rewrite omap_cons.
    destruct (f a) as [b|] eqn:Hfa; simpl.
    + split.
      * intros [= Hlen]. constructor; [by rewrite Hfa | by apply IH].
      * intros Hall. inversion Hall; subst. f_equal. by apply IH.
    + split; [lia|]. intros Hall. inversion Hall; subst. congruence.
Qed.

(** X5: flatten never returns more IDs than it was given references, and
    returns as many exactly when no reference has a nil ID. *)
Theorem flattenVirtualMachineNetworkInterfaceIDs_length
    (refs : slice compute.NetworkInterfaceReference) :
  exists output,
    flattenVirtualMachineNetworkInterfaceIDs (Some refs) = Ok output
    /\ (length (elems output) <= length (elems refs))%nat
    /\ (length (elems output) = length (elems refs)
        <-> Forall (fun ref => compute.NetworkInterfaceReference_ID ref <> None)
                   (elems refs)).
Proof.
  eexists. split; [apply flattenVirtualMachineNetworkInterfaceIDs_Some|].
  cbn [elems]. rewrite length_fmap.
  split; [apply omap_length_le | apply omap_length_eq].
Qed.

(** ** The OS-disk block *)

(** X6: on every bag the schema accepts, expand returns a payload, and
    the size it sets, if any, lies between 1 and 1023: nothing is lost in
    the conversion to 32 bits. *)
Theorem ExpandVirtualMachineOSDisk_valid
    (input : slice value) (osType : compute.OperatingSystemTypes) :
  valid_os_disk_bag input = true ->
  exists disk,
    ExpandVirtualMachineOSDisk input osType = Ok (Some disk)
    /\ match compute.DiskSizeGB disk with
       | Some n => 1 <= n <= 1023
       | None => True
       end.
Proof.
  intros Hvalid.
  destruct (valid_os_disk_bag_inv input Hvalid)
    as (raw & n & s & Hin & Hwt & Hn & Hrange & _).
  destruct (ExpandVirtualMachineOSDisk_Ok input osType Hwt)
    as (raw' & rest & c & sat & w & n' & s' & e & nm & dds
        & Hin' & _ & _ & _ & Hn' & _ & _ & _ & _ & Hexp).
  rewrite Hin in Hin'. injection Hin' as <- <-.
  rewrite Hn in Hn'. injection Hn' as <-.
  eexists. split; [exact Hexp|]. simpl.
  destruct (Z.gtb_spec n 0); [|done].
  rewrite int32_small by lia. lia.
Qed.

Lemma ExpandVirtualMachineOSDisk_valid_witness :
  exists disk,
    ExpandVirtualMachineOSDisk sample_os_disk_bag "Linux" = Ok (Some disk)
    /\ match compute.DiskSizeGB disk with
       | Some n => 1 <= n <= 1023
       | None => True
       end.
Proof.
  apply (ExpandVirtualMachineOSDisk_valid sample_os_disk_bag "Linux").
  vm_compute. reflexivity.
Defined.

(** X7: whenever expand returns, the pointer it returns is not nil, the
    creation option is the hard-coded [FromImage], the OS type is the one
    passed in, and the managed disk and the write-accelerator flag are
    set. *)
Theorem ExpandVirtualMachineOSDisk_fixed_fields
    (input : slice value) (osType : compute.OperatingSystemTypes)
    (r : option compute.OSDisk) :
  ExpandVirtualMachineOSDisk input osType = Ok r ->
  exists disk managedDisk enabled,
    r = Some disk
    /\ compute.CreateOption disk = "FromImage"
    /\ compute.OsType disk = osType
    /\ compute.ManagedDisk disk = Some managedDisk
    /\ compute.WriteAcceleratorEnabled disk = Some enabled.
Proof.
  intros Hr.
  assert (well_typed_os_disk_bag input = true) as Hwt.
  { rewrite <- (ExpandVirtualMachineOSDisk_returns input osType).
    by rewrite Hr. }
  destruct (ExpandVirtualMachineOSDisk_Ok input osType Hwt)
    as (raw & rest & c & sat & w & n & s & e & nm & dds
        & _ & _ & _ & _ & _ & _ & _ & _ & _ & Hexp).
  rewrite Hexp in Hr. injection Hr as <-.
  by eexists _, _, _.
Qed.

Lemma ExpandVirtualMachineOSDisk_fixed_fields_witness :
  exists disk managedDisk enabled,
    Some {| compute.OsType := "Windows";
            compute.Name := Some "osdisk";
            compute.Caching := "ReadWrite";
            compute.WriteAcceleratorEnabled := Some false;
            compute.DiffDiskSettings := Some {| compute.Option := "Local" |};
            compute.CreateOption := "FromImage";
            compute.DiskSizeGB := Some 30;
            compute.ManagedDisk :=
              Some {| compute.StorageAccountType := "Standard_LRS";
                      compute.DiskEncryptionSet := None |} |} = Some disk
    /\ compute.CreateOption disk = "FromImage"
    /\ compute.OsType disk = "Windows"
    /\ compute.ManagedDisk disk = Some managedDisk
    /\ compute.WriteAcceleratorEnabled disk = Some enabled.
Proof.
  apply (ExpandVirtualMachineOSDisk_fixed_fields sample_os_disk_bag "Windows").
  vm_compute. reflexivity.
Defined.

(** Expand reads the first block through its seven attributes only. *)
Lemma ExpandVirtualMachineOSDisk_ext
    (raw raw' : gmap string value) (rest rest' : list value)
    (osType : compute.OperatingSystemTypes) :
  map_index raw "caching" = map_index raw' "caching" ->
  map_index raw "storage_account_type" = map_index raw' "storage_account_type" ->
  map_index raw "write_accelerator_enabled"
  = map_index raw' "write_accelerator_enabled" ->
  map_index raw "disk_size_gb" = map_index raw' "disk_size_gb" ->
  map_index raw "diff_disk_settings" = map_index raw' "diff_disk_settings" ->
  map_index raw "disk_encryption_set_id"
  = map_index raw' "disk_encryption_set_id" ->
  map_index raw "name" = map_index raw' "name" ->
  ExpandVirtualMachineOSDisk (Slice (VMap raw :: rest)) osType
  = ExpandVirtualMachineOSDisk (Slice (VMap raw' :: rest')) osType.
Proof.
  intros Hc Hsat Hw Hn Hd He Hnm.
  unfold ExpandVirtualMachineOSDisk, index. simpl.
  by rewrite Hc, Hsat, Hw, Hn, Hd, He, Hnm.
Qed.

(** X8: expand looks at nothing but the seven attributes of the first
    block: two bags whose first blocks agree on them expand alike, whatever
    else the maps or the lists hold. *)
Theorem ExpandVirtualMachineOSDisk_reads_seven_attributes
    (raw raw' : gmap string value) (rest rest' : list value)
    (osType : compute.OperatingSystemTypes) :
  (forall k : string,
     k ∈ ["caching"; "storage_account_type"; "write_accelerator_enabled";
          "disk_size_gb"; "diff_disk_settings"; "disk_encryption_set_id";
          "name"] ->
     map_index raw k = map_index raw' k) ->
  ExpandVirtualMachineOSDisk (Slice (VMap raw :: rest)) osType
  = ExpandVirtualMachineOSDisk (Slice (VMap raw' :: rest')) osType.
Proof.
  intros Hagree.
  apply ExpandVirtualMachineOSDisk_ext; apply Hagree;
    repeat first [apply list_elem_of_here | apply list_elem_of_further].
Qed.

Lemma ExpandVirtualMachineOSDisk_reads_seven_attributes_witness :
  ExpandVirtualMachineOSDisk
    (Slice [VMap sample_os_disk_fields; VInt 1]) "Linux"
  = ExpandVirtualMachineOSDisk
      (Slice [VMap (<["tags" := VNil]> sample_os_disk_fields)]) "Linux".
Proof.
  apply (ExpandVirtualMachineOSDisk_reads_seven_attributes
           sample_os_disk_fields (<["tags" := VNil]> sample_os_disk_fields)
           [VInt 1] [] "Linux").
  intros k Hk.
  repeat (apply elem_of_cons in Hk as [-> | Hk]; [vm_compute; reflexivity|]).
  by apply elem_of_nil in Hk.
Defined.

(** X9: expand sets [DiskSizeGB] exactly when [disk_size_gb] is positive.
    A size that is zero or negative leaves it nil, a positive size below
    2^31 is stored as it is, and a larger one is cut to its low 32 bits. *)
Theorem ExpandVirtualMachineOSDisk_DiskSizeGB
    (input : slice value) (osType : compute.OperatingSystemTypes)
    (raw : gmap string value) (rest : list value) (n : Z) :
  well_typed_os_disk_bag input = true ->
  elems input = VMap raw :: rest ->
  map_index raw "disk_size_gb" = VInt n ->
  exists disk,
    ExpandVirtualMachineOSDisk input osType = Ok (Some disk)
    /\ (n <= 0 -> compute.DiskSizeGB disk = None)
    /\ (0 < n < 2 ^ 31 -> compute.DiskSizeGB disk = Some n)
    /\ (2 ^ 31 <= n ->
        compute.DiskSizeGB disk = Some ((n + 2 ^ 31) mod 2 ^ 32 - 2 ^ 31)).
Proof.
  intros Hwt Hin Hn.
  destruct (ExpandVirtualMachineOSDisk_Ok input osType Hwt)
    as (raw' & rest' & c & sat & w & n' & s & e & nm & dds
        & Hin' & _ & _ & _ & Hn' & _ & _ & _ & _ & Hexp).
  rewrite Hin in Hin'. injection Hin' as <- <-.
  rewrite Hn in Hn'. injection Hn' as <-.
  eexists. split; [exact Hexp|]. simpl.
  destruct (Z.gtb_spec n 0); repeat split; intros Hrange; try lia; try done.
  by rewrite int32_small by lia.
Qed.

Lemma ExpandVirtualMachineOSDisk_DiskSizeGB_witness :
  exists disk,
    ExpandVirtualMachineOSDisk
      (Slice [VMap (<["disk_size_gb" := VInt (2 ^ 32 + 5)]>
                      sample_os_disk_fields)]) "Linux"
    = Ok (Some disk)
    /\ (2 ^ 32 + 5 <= 0 -> compute.DiskSizeGB disk = None)
    /\ (0 < 2 ^ 32 + 5 < 2 ^ 31 -> compute.DiskSizeGB disk = Some (2 ^ 32 + 5))
    /\ (2 ^ 31 <= 2 ^ 32 + 5 ->
        compute.DiskSizeGB disk
        = Some ((2 ^ 32 + 5 + 2 ^ 31) mod 2 ^ 32 - 2 ^ 31)).
Proof.
  apply (ExpandVirtualMachineOSDisk_DiskSizeGB
           (Slice [VMap (<["disk_size_gb" := VInt (2 ^ 32 + 5)]>
                           sample_os_disk_fields)]) "Linux"
           (<["disk_size_gb" := VInt (2 ^ 32 + 5)]> sample_os_disk_fields)
           [] (2 ^ 32 + 5)).
  - vm_compute. reflexivity.
  - reflexivity.
  - vm_compute. reflexivity.
Defined.

(** X10: expand leaves [Name] nil for an empty [name] and sets it to the
    name otherwise; likewise the disk encryption set of the managed disk
    is nil for an empty [disk_encryption_set_id] and carries the id
    otherwise. *)
Theorem ExpandVirtualMachineOSDisk_optional_strings
    (input : slice value) (osType : compute.OperatingSystemTypes)
    (raw : gmap string value) (rest : list value) (name id : string) :
  well_typed_os_disk_bag input = true ->
  elems input = VMap raw :: rest ->
  map_index raw "name" = VString name ->
  map_index raw "disk_encryption_set_id" = VString id ->
  exists disk managedDisk,
    ExpandVirtualMachineOSDisk input osType = Ok (Some disk)
    /\ compute.ManagedDisk disk = Some managedDisk
    /\ (name = "" -> compute.Name disk = None)
    /\ (name <> "" -> compute.Name disk = Some name)
    /\ (id = "" -> compute.DiskEncryptionSet managedDisk = None)
    /\ (id <> "" ->
        compute.DiskEncryptionSet managedDisk
        = Some {| compute.DiskEncryptionSetParameters_ID := Some id |}).
Proof.
  intros Hwt Hin Hname Hid.
  destruct (ExpandVirtualMachineOSDisk_Ok input osType Hwt)
    as (raw' & rest' & c & sat & w & n & s & e & nm & dds
        & Hin' & _ & _ & _ & _ & _ & He & Hnm & _ & Hexp).
  rewrite Hin in Hin'. injection Hin' as <- <-.
  rewrite Hname in Hnm. injection Hnm as <-.
  rewrite Hid in He. injection He as <-.
  eexists _, _. split; [exact Hexp|]. split; [reflexivity|]. simpl.
  destruct (String.eqb_spec name ""), (String.eqb_spec id "");
    repeat split; intros; done.
Qed.

Lemma ExpandVirtualMachineOSDisk_optional_strings_witness :
  exists disk managedDisk,
    ExpandVirtualMachineOSDisk sample_os_disk_bag "Linux" = Ok (Some disk)
    /\ compute.ManagedDisk disk = Some managedDisk
    /\ ("osdisk" = "" -> compute.Name disk = None)
    /\ ("osdisk" <> "" -> compute.Name disk = Some "osdisk")
    /\ ("" = "" -> compute.DiskEncryptionSet managedDisk = None)
    /\ ("" <> "" ->
        compute.DiskEncryptionSet managedDisk
        = Some {| compute.DiskEncryptionSetParameters_ID := Some "" |}).
Proof.
  apply (ExpandVirtualMachineOSDisk_optional_strings
           sample_os_disk_bag "Linux" sample_os_disk_fields [] "osdisk" "").
  - vm_compute. reflexivity.
  - reflexivity.
  - vm_compute. reflexivity.
  - vm_compute. reflexivity.
Defined.

(** X11: flatten does not tell a nil pointer from a pointer to the zero
    value: a [DiskSizeGB] of 0, an empty [Name], a false
    [WriteAcceleratorEnabled], a managed disk with an empty storage
    account type, and a disk encryption set whose ID is nil or empty each
    flatten like the nil pointer. *)
Theorem FlattenVirtualMachineOSDisk_nil_or_zero (disk : compute.OSDisk) :
  FlattenVirtualMachineOSDisk (Some (compute.set_DiskSizeGB disk (Some 0)))
  = FlattenVirtualMachineOSDisk (Some (compute.set_DiskSizeGB disk None))
  /\ FlattenVirtualMachineOSDisk (Some (compute.set_Name disk (Some "")))
     = FlattenVirtualMachineOSDisk (Some (compute.set_Name disk None))
  /\ FlattenVirtualMachineOSDisk
       (Some (compute.mkOSDisk (compute.OsType disk) (compute.Name disk)
                (compute.Caching disk) (Some false)
                (compute.DiffDiskSettings disk) (compute.CreateOption disk)
                (compute.DiskSizeGB disk) (compute.ManagedDisk disk)))
     = FlattenVirtualMachineOSDisk
         (Some (compute.mkOSDisk (compute.OsType disk) (compute.Name disk)
                  (compute.Caching disk) None
                  (compute.DiffDiskSettings disk) (compute.CreateOption disk)
                  (compute.DiskSizeGB disk) (compute.ManagedDisk disk)))
  /\ FlattenVirtualMachineOSDisk
       (Some (compute.set_ManagedDisk disk
                (Some {| compute.StorageAccountType := "";
                         compute.DiskEncryptionSet := None |})))
     = FlattenVirtualMachineOSDisk (Some (compute.set_ManagedDisk disk None))
  /\ (forall storageAccountType,
        let flattened encryptionSet :=
          FlattenVirtualMachineOSDisk
            (Some (compute.set_ManagedDisk disk
                     (Some {| compute.StorageAccountType := storageAccountType;
                              compute.DiskEncryptionSet := encryptionSet |}))) in
        flattened
          (Some {| compute.DiskEncryptionSetParameters_ID := None |})
        = flattened None
        /\ flattened
             (Some {| compute.DiskEncryptionSetParameters_ID := Some "" |})
           = flattened None).
Proof.
  repeat split; by rewrite !FlattenVirtualMachineOSDisk_Some.
Qed.

(** X12: the OS type passed to expand leaves no trace in the flattened
    block: flatten after expand gives the same result, or the same panic,
    for any two OS types. *)
Theorem FlattenVirtualMachineOSDisk_forgets_osType
    (input : slice value) (osType osType' : compute.OperatingSystemTypes) :
  ExpandVirtualMachineOSDisk input osType ≫= FlattenVirtualMachineOSDisk
  = ExpandVirtualMachineOSDisk input osType' ≫= FlattenVirtualMachineOSDisk.
Proof.
  unfold ExpandVirtualMachineOSDisk, index, len.
  destruct (elems input) as [|[| | | | |raw] rest]; try done. simpl.
  destruct (map_index raw "caching"); simpl; try done.
  destruct (map_index raw "storage_account_type"); simpl; try done.
  destruct (map_index raw "write_accelerator_enabled"); simpl; try done.
  destruct (map_index raw "disk_size_gb"); simpl; try done.
  destruct (map_index raw "diff_disk_settings") as [| | | |l|]; simpl;
    try done.
  destruct (elems l) as [|[| | | | |m] more]; simpl; try done;
    try destruct (map_index m "option"); simpl; try done;
    destruct (map_index raw "disk_encryption_set_id"); simpl; try done;
    destruct (map_index raw "name"); simpl; try done;
    case_ifs; by rewrite ?FlattenVirtualMachineOSDisk_Some.
Qed.

(** The block flatten builds has every attribute expand asserts. *)
Lemma FlattenVirtualMachineOSDisk_well_typed (disk : compute.OSDisk) :
  exists output,
    FlattenVirtualMachineOSDisk (Some disk) = Ok output
    /\ well_typed_os_disk_bag output = true.
Proof.
  eexists. split; [apply FlattenVirtualMachineOSDisk_Some|].
  unfold well_typed_os_disk_bag. cbn [elems].
  edestruct os_disk_map_index as (Ec & En & Ed & Ee & Enm & Es & Ew).
  rewrite Ec, En, Ed, Ee, Enm, Es, Ew.
  by destruct (compute.DiffDiskSettings disk).
Qed.

(** X13: expanding what flatten returns goes through for every non-nil
    payload, and panics for the nil payload, whose flattened list is empty. *)
Theorem ExpandVirtualMachineOSDisk_after_flatten
    (input : option compute.OSDisk) (osType : compute.OperatingSystemTypes) :
  returns (FlattenVirtualMachineOSDisk input
             ≫= fun output => ExpandVirtualMachineOSDisk output osType)
  = nonnil input.
Proof.
  destruct input as [disk|]; [|reflexivity].
  destruct (FlattenVirtualMachineOSDisk_well_typed disk)
    as (output & -> & Hwt).
  rewrite bind_Ok, ExpandVirtualMachineOSDisk_returns. exact Hwt.
Qed.

(** X14: on a bag the schema accepts, the payload expand builds is a
    fixed point of flatten followed by expand: nothing expand has set is
    lost on the way through the attribute bag. *)
Theorem ExpandVirtualMachineOSDisk_FlattenVirtualMachineOSDisk
    (input : slice value) (osType : compute.OperatingSystemTypes) :
  valid_os_disk_bag input = true ->
  exists disk,
    ExpandVirtualMachineOSDisk input osType = Ok (Some disk)
    /\ FlattenVirtualMachineOSDisk (Some disk)
         ≫= (fun output => ExpandVirtualMachineOSDisk output osType)
       = Ok (Some disk).
Proof.
  intros Hvalid.
  destruct (valid_os_disk_bag_inv input Hvalid)
    as (raw & n & s & Hin & Hwt & Hn & Hrange & Hs & Hdiff).
  destruct (ExpandVirtualMachineOSDisk_Ok input osType Hwt)
    as (raw' & rest & c & sat & w & n' & s' & e & nm & dds
        & Hin' & _ & _ & _ & Hn' & Hs' & _ & _ & Hdds & Hexp).
  rewrite Hin in Hin'. injection Hin' as <- <-.
  rewrite Hn in Hn'. injection Hn' as <-.
  rewrite Hs in Hs'. injection Hs' as <-.
  eexists. split; [exact Hexp|].
  rewrite FlattenVirtualMachineOSDisk_Some, bind_Ok.
  unfold ExpandVirtualMachineOSDisk, index. cbn [elems lookup list_lookup].
  rewrite bind_Ok. cbn [assert_map]. rewrite bind_Ok.
  edestruct os_disk_map_index as (Ec & En & Ed & Ee & Enm & Es & Ew).
  rewrite Ec, En, Ed, Ee, Enm, Es, Ew. clear Ec En Ed Ee Enm Es Ew.
  cbn [compute.Name compute.DiskSizeGB compute.ManagedDisk
       compute.DiskEncryptionSet compute.StorageAccountType
       compute.WriteAcceleratorEnabled compute.DiffDiskSettings
       compute.Caching fmap option_fmap option_map].
  rewrite default_unless_empty.
  replace (default ""
             ((mbind compute.DiskEncryptionSet
                 (Some {| compute.StorageAccountType := sat;
                          compute.DiskEncryptionSet :=
                            if String.eqb e "" then None
                            else Some {| compute.DiskEncryptionSetParameters_ID
                                         := Some e |} |}))
                ≫= compute.DiskEncryptionSetParameters_ID))
    with e by (by destruct (String.eqb_spec e "") as [->|]).
  replace (default 0 (if n >? 0 then Some (int32 n) else None)) with n
    by (destruct (Z.gtb_spec n 0); simpl; [rewrite int32_small|]; lia).
  assert (dds = None \/ exists o, dds = Some {| compute.Option := o |})
    as [-> | [o ->]].
  { unfold expanded_diff_disk_settings in Hdds.
    destruct Hdiff as [Hnil | [o Hone]].
    - rewrite Hnil in Hdds. by left.
    - rewrite Hone in Hdds. destruct Hdds as (o' & _ & ->). right. by exists o'. }
  all: simpl; by destruct (n >? 0), (String.eqb e ""), (String.eqb nm "").
Qed.

Lemma ExpandVirtualMachineOSDisk_FlattenVirtualMachineOSDisk_witness :
  exists disk,
    ExpandVirtualMachineOSDisk sample_os_disk_bag "Linux" = Ok (Some disk)
    /\ FlattenVirtualMachineOSDisk (Some disk)
         ≫= (fun output => ExpandVirtualMachineOSDisk output "Linux")
       = Ok (Some disk).
Proof.
  apply (ExpandVirtualMachineOSDisk_FlattenVirtualMachineOSDisk
           sample_os_disk_bag "Linux").
  vm_compute. reflexivity.
Defined.

(** ** Connection information *)

(** X15: without properties the setter leaves the resource data alone,
    nil or not.  With properties and a nil resource data it panics.  With
    properties and a resource data it replaces the connection info by a
    type and the placeholder host; the type is [winrm] exactly when the OS
    profile and its Windows configuration are both present, and [ssh]
    otherwise. *)
Theorem setVirtualMachineConnectionInformation_spec :
  (forall d, setVirtualMachineConnectionInformation d None = Ok d)
  /\ (forall input : compute.VirtualMachineProperties,
        setVirtualMachineConnectionInformation None (Some input)
        = Panic "nil pointer dereference")
  /\ forall (d : schema.ResourceData)
            (input : compute.VirtualMachineProperties),
       exists provisionerType,
         setVirtualMachineConnectionInformation (Some d) (Some input)
         = Ok (Some {| schema.ConnInfo :=
                         {[ "type" := provisionerType;
                            "host" := "1.2.3.4" ]} |})
         /\ (provisionerType = "winrm" \/ provisionerType = "ssh")
         /\ (provisionerType = "winrm"
             <-> exists profile configuration,
                   compute.OsProfile input = Some profile
                   /\ compute.WindowsConfiguration profile = Some configuration).
Proof.
  split; [reflexivity|]. split.
  { intros [[[[configuration|]]|]]; reflexivity. }
  intros d [[[[configuration|]]|]].
  - exists "winrm". split; [reflexivity|]. split; [by left|].
    split; [|done]. intros _. by eexists _, _.
  - exists "ssh". split; [reflexivity|]. split; [by right|].
    split; [done|]. by intros (profile & configuration & [= <-] & ?).
  - exists "ssh". split; [reflexivity|]. split; [by right|].
    split; [done|]. by intros (profile & configuration & ? & _).
Qed.

(** ** Acceptance checks *)

(** X16: when one of the three names is missing from the root module, the
    check returns the error naming the first missing one, in the order
    resource group, vault, resource, and the client plays no part. *)
Theorem testCheckAzureRMSiteRecoveryFabricExists_not_found (Get : GetFunc)
    (resourceGroupStateName vaultStateName resourceStateName : string)
    (s : terraform.State) (root : terraform.ModuleState) :
  terraform.RootModule s = Ok root ->
  (terraform.Resources root !! resourceGroupStateName = None ->
   testCheckAzureRMSiteRecoveryFabricExists Get resourceGroupStateName
     vaultStateName resourceStateName s
   = Ok (Some (Errorf "Not found: %s" [ArgString resourceGroupStateName])))
  /\ (terraform.Resources root !! resourceGroupStateName <> None ->
      terraform.Resources root !! vaultStateName = None ->
      testCheckAzureRMSiteRecoveryFabricExists Get resourceGroupStateName
        vaultStateName resourceStateName s
      = Ok (Some (Errorf "Not found: %s" [ArgString vaultStateName])))
  /\ (terraform.Resources root !! resourceGroupStateName <> None ->
      terraform.Resources root !! vaultStateName <> None ->
      terraform.Resources root !! resourceStateName = None ->
      testCheckAzureRMSiteRecoveryFabricExists Get resourceGroupStateName
        vaultStateName resourceStateName s
      = Ok (Some (Errorf "Not found: %s" [ArgString resourceStateName]))).
Proof.
  intros Hroot. unfold testCheckAzureRMSiteRecoveryFabricExists.
  rewrite Hroot. simpl.
  destruct (terraform.Resources root !! resourceGroupStateName);
    destruct (terraform.Resources root !! vaultStateName);
    destruct (terraform.Resources root !! resourceStateName);
    repeat split; intros; done.
Qed.

Lemma testCheckAzureRMSiteRecoveryFabricExists_not_found_witness :
  testCheckAzureRMSiteRecoveryFabricExists (fun _ _ _ => (Some 200, None))
    "azurerm_resource_group.test" "azurerm_recovery_services_vault.test"
    "azurerm_site_recovery_fabric.test" sample_state_without_fabric
  = Ok (Some (Errorf "Not found: %s"
                     [ArgString "azurerm_site_recovery_fabric.test"])).
Proof.
  refine (proj2 (proj2
    (testCheckAzureRMSiteRecoveryFabricExists_not_found
       (fun _ _ _ => (Some 200, None))
       "azurerm_resource_group.test" "azurerm_recovery_services_vault.test"
       "azurerm_site_recovery_fabric.test" sample_state_without_fabric
       sample_root_without_fabric _)) _ _ _).
  - reflexivity.
  - vm_compute. discriminate.
  - vm_compute. discriminate.
  - vm_compute. reflexivity.
Defined.

(** X17: when the three resources are in the state with their primary
    instances, the check asks the client for the three [name] attributes
    and passes exactly when the client reports no error and a status other
    than 404; a client error comes back wrapped, and a 404 as the error
    naming the resource. *)
Theorem testCheckAzureRMSiteRecoveryFabricExists_lookup (Get : GetFunc)
    (resourceGroupStateName vaultStateName resourceStateName : string)
    (s : terraform.State) (root : terraform.ModuleState)
    (resourceGroup vault fabric : terraform.InstanceState) :
  terraform.RootModule s = Ok root ->
  terraform.Resources root !! resourceGroupStateName
  = Some (Some {| terraform.Primary := Some resourceGroup |}) ->
  terraform.Resources root !! vaultStateName
  = Some (Some {| terraform.Primary := Some vault |}) ->
  terraform.Resources root !! resourceStateName
  = Some (Some {| terraform.Primary := Some fabric |}) ->
  let check :=
    testCheckAzureRMSiteRecoveryFabricExists Get resourceGroupStateName
      vaultStateName resourceStateName s in
  let fabricName := attribute (terraform.Attributes fabric) "name" in
  let answer :=
    Get (attribute (terraform.Attributes resourceGroup) "name")
        (attribute (terraform.Attributes vault) "name") fabricName in
  (check = Ok None
   <-> exists statusCode, answer = (Some statusCode, None) /\ statusCode <> 404)
  /\ (forall resp err,
        answer = (resp, Some err) ->
        check = Ok (Some (Errorf "Bad: Get on fabricClient: %+v" [ArgError err])))
  /\ (answer = (Some 404, None) ->
      check = Ok (Some (Errorf "Bad: fabric: %q does not exist"
                               [ArgString fabricName]))).
Proof.
  intros Hroot Hrg Hvault Hfabric check fabricName answer.
  subst check. unfold testCheckAzureRMSiteRecoveryFabricExists.
  rewrite Hroot. simpl. rewrite Hrg, Hvault, Hfabric. simpl.
  fold fabricName. fold answer.
  destruct answer as [[statusCode|] [err|]]; simpl.
  - split; [|split]; [split; [done|by intros (? & [=] & _)]| |done].
    by intros resp err' [= _ <-].
  - unfold StatusNotFound. destruct (Z.eqb_spec statusCode 404) as [->|Hne].
    + split; [|split]; [split; [done|]| |done].
      * by intros (? & [= <-] & ?).
      * by intros resp err [=].
    + split; [|split].
      * split; [|done]. intros _. by exists statusCode.
      * by intros resp err [=].
      * intros [= ->]. done.
  - split; [|split]; [split; [done|by intros (? & [=] & _)]| |done].
    by intros resp err' [= _ <-].
  - split; [|split]; [split; [done|by intros (? & [=] & _)]| |done].
    by intros resp err [=].
Qed.

Lemma testCheckAzureRMSiteRecoveryFabricExists_lookup_witness :
  testCheckAzureRMSiteRecoveryFabricExists
    (fun _ _ name =>
       if String.eqb name "acctest-fabric-1" then (Some 200, None)
       else (Some 404, None))
    "azurerm_resource_group.test" "azurerm_recovery_services_vault.test"
    "azurerm_site_recovery_fabric.test" sample_state
  = Ok None.
Proof.
  refine (proj2 (proj1
    (testCheckAzureRMSiteRecoveryFabricExists_lookup
       (fun _ _ name =>
          if String.eqb name "acctest-fabric-1" then (Some 200, None)
          else (Some 404, None))
       "azurerm_resource_group.test" "azurerm_recovery_services_vault.test"
       "azurerm_site_recovery_fabric.test" sample_state sample_root
       {| terraform.Attributes := {[ "name" := "acctestRG-1" ]} |}
       {| terraform.Attributes := {[ "name" := "acctest-vault-1" ]} |}
       {| terraform.Attributes := {[ "name" := "acctest-fabric-1" ]} |}
       _ _ _ _)) _).
  - reflexivity.
  - vm_compute. reflexivity.
  - vm_compute. reflexivity.
  - vm_compute. reflexivity.
  - exists 200. split; [vm_compute; reflexivity | discriminate].
Defined.

(** X18: the replication-policy check is the fabric check run against
    the client it is given: same lookups, same order, and the same error
    texts, which speak of the fabric. *)
Theorem testCheckAzureRMSiteRecoveryReplicationPolicyExists_as_fabric
    (Get : GetFunc)
    (resourceGroupStateName vaultStateName policyStateName : string)
    (s : terraform.State) :
  testCheckAzureRMSiteRecoveryReplicationPolicyExists Get
    resourceGroupStateName vaultStateName policyStateName s
  = testCheckAzureRMSiteRecoveryFabricExists Get
      resourceGroupStateName vaultStateName policyStateName s.
Proof. reflexivity. Qed.

(** X19: the check does not guard the pointers it finds in the state:
    when the three resources are there but one of them is a nil resource
    state or has no primary instance, it panics with a nil dereference
    instead of returning an error. *)
Theorem testCheckAzureRMSiteRecoveryFabricExists_panics (Get : GetFunc)
    (resourceGroupStateName vaultStateName resourceStateName : string)
    (s : terraform.State) (root : terraform.ModuleState)
    (resourceGroup vault fabric : option terraform.ResourceState) :
  terraform.RootModule s = Ok root ->
  terraform.Resources root !! resourceGroupStateName = Some resourceGroup ->
  terraform.Resources root !! vaultStateName = Some vault ->
  terraform.Resources root !! resourceStateName = Some fabric ->
  (resourceGroup ≫= terraform.Primary = None
   \/ vault ≫= terraform.Primary = None
   \/ fabric ≫= terraform.Primary = None) ->
  testCheckAzureRMSiteRecoveryFabricExists Get resourceGroupStateName
    vaultStateName resourceStateName s
  = Panic "nil pointer dereference".
Proof.
  intros Hroot Hrg Hvault Hfabric Hnil.
  unfold testCheckAzureRMSiteRecoveryFabricExists.
  rewrite Hroot. simpl. rewrite Hrg, Hvault, Hfabric.
  destruct resourceGroup as [[[rg|]]|], vault as [[[v|]]|],
    fabric as [[[f|]]|]; simpl in *; try reflexivity.
  by destruct Hnil as [? | [? | ?]].
Qed.

Lemma testCheckAzureRMSiteRecoveryFabricExists_panics_witness :
  testCheckAzureRMSiteRecoveryFabricExists (fun _ _ _ => (Some 200, None))
    "azurerm_resource_group.test" "azurerm_recovery_services_vault.test"
    "azurerm_site_recovery_fabric.test" sample_state_without_primary
  = Panic "nil pointer dereference".
Proof.
  apply (testCheckAzureRMSiteRecoveryFabricExists_panics
           (fun _ _ _ => (Some 200, None))
           "azurerm_resource_group.test" "azurerm_recovery_services_vault.test"
           "azurerm_site_recovery_fabric.test" sample_state_without_primary
           sample_root_without_primary
           (sample_resource "acctestRG-1") (sample_resource "acctest-vault-1")
           (Some {| terraform.Primary := None |})).
  - reflexivity.
  - vm_compute. reflexivity.
  - vm_compute. reflexivity.
  - vm_compute. reflexivity.
  - right. right. reflexivity.
Defined.

(** Flattening a payload as expand builds it, for a size the schema
    allows. *)
Lemma FlattenVirtualMachineOSDisk_expanded
    (osType c sat e nm : string) (w : bool) (n : Z)
    (dds : option compute.DiffDiskSettingsStruct) :
  0 <= n <= 1023 ->
  FlattenVirtualMachineOSDisk (Some
    {| compute.OsType := osType;
       compute.Name := if String.eqb nm "" then None else Some nm;
       compute.Caching := c;
       compute.WriteAcceleratorEnabled := Some w;
       compute.DiffDiskSettings := dds;
       compute.CreateOption := compute.DiskCreateOptionTypesFromImage;
       compute.DiskSizeGB := if n >? 0 then Some (int32 n) else None;
       compute.ManagedDisk := Some
         {| compute.StorageAccountType := sat;
            compute.DiskEncryptionSet :=
              if String.eqb e "" then None
              else Some {| compute.DiskEncryptionSetParameters_ID := Some e |} |} |})
  = Ok (Slice [
      VMap {[ "caching" := VString c;
              "disk_size_gb" := VInt n;
              "diff_disk_settings" :=
                VList (Slice
                  (match dds with
                   | Some settings =>
                       [VMap {[ "option" := VString (compute.Option settings) ]}]
                   | None => []
                   end));
              "disk_encryption_set_id" := VString e;
              "name" := VString nm;
              "storage_account_type" := VString sat;
              "write_accelerator_enabled" := VBool w ]} ]).
Proof.
  intros Hrange. rewrite FlattenVirtualMachineOSDisk_Some.
  cbn [compute.Name compute.DiskSizeGB compute.ManagedDisk
       compute.DiskEncryptionSet compute.StorageAccountType
       compute.WriteAcceleratorEnabled compute.DiffDiskSettings
       compute.Caching fmap option_fmap option_map].
  rewrite default_unless_empty.
  replace (default 0 (if n >? 0 then Some (int32 n) else None)) with n
    by (destruct (Z.gtb_spec n 0); simpl; [rewrite int32_small|]; lia).
  by destruct (String.eqb_spec e "") as [->|].
Qed.

(** X20: on a bag shaped as the schema produces it (the block holds the
    seven attributes and no other, and its lists are not nil), flatten
    after expand is the identity. *)
Theorem FlattenVirtualMachineOSDisk_ExpandVirtualMachineOSDisk_id
    (raw : gmap string value) (s : slice value)
    (osType : compute.OperatingSystemTypes) :
  valid_os_disk_bag (Slice [VMap raw]) = true ->
  dom raw = {[ "caching"; "disk_size_gb"; "diff_disk_settings";
               "disk_encryption_set_id"; "name"; "storage_account_type";
               "write_accelerator_enabled" ]} ->
  map_index raw "diff_disk_settings" = VList s ->
  is_nil s = false ->
  ExpandVirtualMachineOSDisk (Slice [VMap raw]) osType
    ≫= FlattenVirtualMachineOSDisk
  = Ok (Slice [VMap raw]).
Proof.
  intros Hvalid Hdom Hs Hnonnil.
  destruct (valid_os_disk_bag_inv _ Hvalid)
    as (raw0 & n & s0 & Hin & Hwt & Hn & Hrange & Hs0 & Hdiff).
  injection Hin as <-. rewrite Hs in Hs0. injection Hs0 as <-.
  destruct (ExpandVirtualMachineOSDisk_Ok _ osType Hwt)
    as (raw' & rest & c & sat & w & n' & s' & e & nm & dds
        & Hin' & Hc & Hsat & Hw & Hn' & Hs' & He & Hnm & Hdds & Hexp).
  injection Hin' as <- <-.
  rewrite Hn in Hn'. injection Hn' as <-.
  rewrite Hs in Hs'. injection Hs' as <-.
  rewrite Hexp, bind_Ok, FlattenVirtualMachineOSDisk_expanded by done.
  do 4 f_equal.
  assert (Slice (match dds with
                 | Some settings =>
                     [VMap {[ "option" := VString (compute.Option settings) ]}]
                 | None => []
                 end) = s) as ->.
  { destruct s as [|l]; [discriminate Hnonnil|]. simpl in *. f_equal.
    unfold expanded_diff_disk_settings in Hdds. simpl in Hdds.
    destruct Hdiff as [-> | [o ->]]; [by rewrite Hdds|].
    destruct Hdds as (o' & Ho' & ->). simpl.
    vm_compute in Ho'. by injection Ho' as <-. }
  apply map_index_lookup in Hc, Hsat, Hw, Hn, Hs, He, Hnm; try done.
  apply map_eq. intros k.
  destruct (decide (k ∈ dom raw)) as [Hk | Hk].
  - rewrite Hdom in Hk.
    repeat (apply elem_of_union in Hk as [Hk | Hk]);
      apply elem_of_singleton in Hk as ->; by simplify_map_eq.
  - rewrite (proj1 (not_elem_of_dom raw k) Hk).
    rewrite Hdom in Hk.
    repeat (apply not_elem_of_union in Hk as [Hk ?]).
    rewrite !not_elem_of_singleton in *.
    by simplify_map_eq.
Qed.

Lemma FlattenVirtualMachineOSDisk_ExpandVirtualMachineOSDisk_id_witness :
  ExpandVirtualMachineOSDisk sample_os_disk_bag "Linux"
    ≫= FlattenVirtualMachineOSDisk
  = Ok sample_os_disk_bag.
Proof.
  apply (FlattenVirtualMachineOSDisk_ExpandVirtualMachineOSDisk_id
           sample_os_disk_fields
           (Slice [VMap {[ "option" := VString "Local" ]}]) "Linux").
  - vm_compute. reflexivity.
  - apply (bool_decide_unpack _). vm_compute. exact I.
  - vm_compute. reflexivity.
  - reflexivity.
Defined.
